(** * Source-site filtering of openquake.hazardlib.calc.filters

    A shallow embedding of [IntegrationDistance], [SourceFilter], [context],
    [getdefault] and [get_distances], together with the properties of the
    filtering engine that follow from the code.

    Conventions of the embedding:
    - Python floats are exact rationals ([Q]) wherever the code only stores,
      compares or shifts them; comparisons are the boolean comparisons of
      [Q], so [x == 0] is equality of values.  The arithmetic of the
      interpolation is given twice: in exact arithmetic ([interp1d_call])
      and in binary64 ([interp1d_call_b64]).
    - a Python call that may raise returns a [result];
    - a generator is the list of the items it yielded followed by how it
      ended ([Done] or [Raised e]);
    - dictionaries keyed by tectonic region type are [gmap string _]. *)

From Stdlib Require Import QArith Qabs Qminmax Lqa PrimFloat.
From stdpp Require Import gmap strings list fin_maps sorting.

Local Open Scope Q_scope.

(** ** Exceptions and fallible computations *)

Inductive exc_type :=
| KeyError
| IndexError
| ValueError
| TypeError
| AttributeError
| FarAwayRupture
| RTreeError
| UnicodeDecodeError
| OtherError (name : string).

(** Whether the class can be instantiated from one message string, as
    [tp(value)].  The constructor of UnicodeDecodeError takes five
    arguments; [OtherError] stands for classes that take a message. *)
Definition accepts_message (tp : exc_type) : bool :=
  match tp with
  | UnicodeDecodeError => false
  | _ => true
  end.

(** An exception instance: its class, [str(err)] and its traceback.  Only
    errors are meant; the signals of the iteration protocol (StopIteration,
    GeneratorExit) are not. *)
Record exc := Exc { etype : exc_type; emsg : string; etb : list string }.

Inductive result (A : Type) :=
| Ok (a : A)
| Raise (e : exc).
Arguments Ok {A} a.
Arguments Raise {A} e.

#[global] Instance result_ret : MRet result := fun A a => Ok a.

#[global] Instance result_bind : MBind result := fun A B k r =>
  match r with
  | Ok a => k a
  | Raise e => Raise e
  end.

Definition raise_new {A} (t : exc_type) (msg : string) : result A :=
  Raise (Exc t msg []).

(** ** Comparisons on floats *)

Definition Qleb (x y : Q) : bool := Qle_bool x y.
Definition Qltb (x y : Q) : bool := negb (Qle_bool y x).

(** ** Sites and site collections *)

(** Modelled from the spec: the site module is not part of the sources.  A
    site is a point with a longitude, a latitude and a sea-level flag; its
    identifier is its position in the complete collection.  The definitions
    of this part, up to [sc_filter], render the interface the spec gives to
    site collections: coordinates, identifiers, the [complete] reference,
    the sea-level test and [filter]. *)
Record Site := { lon : Q; lat : Q; sea_level : bool }.

(** Modelled from the spec: a collection is either the complete one or a
    filtered view made of site identifiers and a reference to the complete
    collection ([FilteredSiteCollection(indices, complete)]). *)
Inductive SiteCollection :=
| SiteCol (sites : list Site)
| Filtered (indices : list nat) (complete_sites : list Site).

(** Modelled from the spec: the sites of the complete collection a
    collection refers to. *)
Definition all_sites (sc : SiteCollection) : list Site :=
  match sc with
  | SiteCol s => s
  | Filtered _ c => c
  end.

(** Modelled from the spec: [sites.complete], the unfiltered original
    collection. *)
Definition complete (sc : SiteCollection) : SiteCollection :=
  SiteCol (all_sites sc).

(** Modelled from the spec: the constructor of a filtered view. *)
Definition FilteredSiteCollection (indices : list nat) (c : SiteCollection)
  : SiteCollection :=
  Filtered indices (all_sites c).

(** Modelled from the spec: the identifiers of the collection. *)
Definition sids (sc : SiteCollection) : list nat :=
  match sc with
  | SiteCol s => seq 0 (length s)
  | Filtered ids _ => ids
  end.

(** Modelled from the spec: the sites of the collection, in the order of
    [sids], with their coordinate arrays and their number. *)
Definition mesh (sc : SiteCollection) : list Site :=
  match sc with
  | SiteCol s => s
  | Filtered ids c => omap (fun i => c !! i) ids
  end.

Definition lons (sc : SiteCollection) : list Q := map lon (mesh sc).
Definition lats (sc : SiteCollection) : list Q := map lat (mesh sc).
Definition len (sc : SiteCollection) : nat := length (sids sc).

(** Modelled from the spec: whether all the sites are at sea level. *)
Definition at_sea_level (sc : SiteCollection) : bool :=
  forallb sea_level (mesh sc).

(** [a[mask]] for a boolean mask. *)
Fixpoint select {A} (mask : list bool) (a : list A) : list A :=
  match mask, a with
  | b :: mask', x :: a' => if b then x :: select mask' a' else select mask' a'
  | _, _ => []
  end.

(** Modelled from the spec: [SiteCollection.filter(mask)] is the collection
    restricted to the identifiers the mask selects, with the same complete
    collection. *)
Definition sc_filter (sc : SiteCollection) (mask : list bool)
  : SiteCollection :=
  FilteredSiteCollection (select mask (sids sc)) (complete sc).

(** ** getdefault *)

Definition getdefault {V} (dic_with_default : gmap string V) (key : string)
  : result V :=
  match dic_with_default !! key with
  | Some v => Ok v
  | None =>
      match dic_with_default !! "default"%string with
      | Some v => Ok v
      | None => raise_new KeyError "'default'"
      end
  end.

(** ** Ruptures and get_distances *)

(** The distance procedures of a rupture surface, each giving one value per
    point of the mesh. *)
Record Surface := {
  get_min_distance : Site -> Q;
  get_rx_distance : Site -> Q;
  get_ry0_distance : Site -> Q;
  get_joyner_boore_distance : Site -> Q;
  get_azimuth : Site -> Q }.

Record Hypocenter := {
  distance_to_mesh : bool -> Site -> Q  (* with_depths, point *) }.

Record Rupture := {
  rup_tectonic_region_type : string;
  mag : Q;
  surface : Surface;
  hypocenter : Hypocenter;
  get_cdppvalue : Site -> Q }.

Definition get_distances (rupture : Rupture) (m : list Site) (param : string)
  : result (list Q) :=
  if String.eqb param "rrup" then
    Ok (map (get_min_distance (surface rupture)) m)
  else if String.eqb param "rx" then
    Ok (map (get_rx_distance (surface rupture)) m)
  else if String.eqb param "ry0" then
    Ok (map (get_ry0_distance (surface rupture)) m)
  else if String.eqb param "rjb" then
    Ok (map (get_joyner_boore_distance (surface rupture)) m)
  else if String.eqb param "rhypo" then
    Ok (map (distance_to_mesh (hypocenter rupture) true) m)
  else if String.eqb param "repi" then
    Ok (map (distance_to_mesh (hypocenter rupture) false) m)
  else if String.eqb param "rcdpp" then
    Ok (map (get_cdppvalue rupture) m)
  else if String.eqb param "azimuth" then
    Ok (map (get_azimuth (surface rupture)) m)
  else raise_new ValueError ("Unknown distance measure '" ++ param ++ "'").

(** [filter_sites_by_distance_to_rupture] *)
Definition filter_sites_by_distance_to_rupture (rupture : Rupture)
    (integration_distance : Q) (sites : SiteCollection) : SiteCollection :=
  let jb_dist := map (get_joyner_boore_distance (surface rupture)) (mesh sites) in
  sc_filter sites (map (fun d => Qleb d integration_distance) jb_dist).

(** ** IntegrationDistance *)

(** A value of the dictionary: a float or a list of pairs (mag, dist). *)
Inductive dist_value :=
| Scalar (d : Q)
| MagDist (pairs : list (Q * Q)).

(** Order of Python tuples of two floats. *)
Definition pair_leb (p q : Q * Q) : bool :=
  Qltb p.1 q.1 || (Qeq_bool p.1 q.1 && Qleb p.2 q.2).

Definition pair_le (p q : Q * Q) : Prop := Is_true (pair_leb p q).

(** [value.sort()] *)
Definition sort_pairs (value : list (Q * Q)) : list (Q * Q) :=
  merge_sort pair_le value.

(** [zip] of the unpacked [value]: the tuple of magnitudes and the tuple of
    distances, as the comment on [magdist] has it; nothing for an empty
    list.  The result can be read again and again, as the list that [zip]
    returns under Python 2; under Python 3 it is an iterator that the first
    interpolator built from it uses up, which this model does not
    follow. *)
Definition zip_star (value : list (Q * Q)) : list (list Q) :=
  match value with
  | [] => []
  | _ => [map fst value; map snd value]
  end.

(** The object [interp1d(x, y, bounds_error=False,
    fill_value='extrapolate')] of scipy, of kind linear.  scipy orders the
    points by [x] first; the lists it receives here were sorted by the
    constructor of IntegrationDistance already, so the model keeps them as
    they are. *)
Record interp1d := { ix : list Q; iy : list Q }.

Definition interp1d_new (args : list (list Q)) : result interp1d :=
  match args with
  | [x; y] =>
      if negb (length x =? length y)%nat then
        raise_new ValueError "x and y arrays must be equal in length along interpolation axis."
      else if (length x <? 2)%nat then
        raise_new ValueError "x and y arrays must have at least 2 entries"
      else Ok {| ix := x; iy := y |}
  | _ => raise_new TypeError "__init__() missing required positional arguments"
  end.

(** [numpy.searchsorted(xs, v)]: the first position whose entry is not
    below [v], for [xs] in ascending order. *)
Fixpoint searchsorted (xs : list Q) (v : Q) : nat :=
  match xs with
  | [] => 0
  | x :: xs' => if Qltb x v then S (searchsorted xs' v) else 0
  end.

(** Calling the interpolator, in exact arithmetic: the segment is chosen by
    [searchsorted] clipped to [1, n-1], so magnitudes outside the table use
    the first or the last segment (linear extrapolation).  This is the
    value of the piecewise-linear function itself; what the code returns
    is its evaluation in binary64, [interp1d_call_b64] below, which rounds
    after every operation.  A division by zero, which two equal magnitudes
    cause, has no meaning here. *)
Definition interp1d_call (f : interp1d) (x_new : Q) : Q :=
  let n := length (ix f) in
  let i := Nat.min (Nat.max (searchsorted (ix f) x_new) 1) (n - 1) in
  let lo := (i - 1)%nat in
  let hi := i in
  let x_lo := nth lo (ix f) 0 in
  let x_hi := nth hi (ix f) 0 in
  let y_lo := nth lo (iy f) 0 in
  let y_hi := nth hi (iy f) 0 in
  let slope := (y_hi - y_lo) / (x_hi - x_lo) in
  slope * (x_new - x_lo) + y_lo.

Record IntegrationDistance := {
  dic : gmap string dist_value;          (* TRT -> float or list of pairs *)
  magdist : gmap string (list (list Q)); (* TRT -> (magnitudes, distances) *)
  interp : option (gmap string interp1d) (* function cache, created lazily *) }.

Definition init_value (value : dist_value) : dist_value :=
  match value with
  | MagDist l => MagDist (sort_pairs l)
  | Scalar d => Scalar d
  end.

Definition init_magdist (value : dist_value) : option (list (list Q)) :=
  match value with
  | MagDist l => Some (zip_star (sort_pairs l))
  | Scalar _ => None
  end.

(** [IntegrationDistance.__init__] *)
Definition IntegrationDistance_init (d : gmap string dist_value)
  : IntegrationDistance :=
  {| dic := init_value <$> d;
     magdist := omap init_magdist d;
     interp := None |}.

Definition set_interp (self : IntegrationDistance)
    (c : gmap string interp1d) : IntegrationDistance :=
  {| dic := dic self; magdist := magdist self; interp := Some c |}.

(** [IntegrationDistance.__call__]: the result and the object afterwards. *)
Definition IntegrationDistance_call (self : IntegrationDistance)
    (trt : string) (mag : option Q) : result Q * IntegrationDistance :=
  match getdefault (dic self) trt with
  | Raise e => (Raise e, self)
  | Ok (Scalar value) => (Ok value, self)
  | Ok (MagDist value) =>
      match mag with
      | None =>
          match last value with
          | Some p => (Ok p.2, self)
          | None => (raise_new IndexError "list index out of range", self)
          end
      | Some m =>
          let cache := default ∅ (interp self) in
          match cache !! trt with
          | Some md => (Ok (interp1d_call md m), set_interp self cache)
          | None =>
              match getdefault (magdist self) trt ≫= interp1d_new with
              | Raise e => (Raise e, set_interp self cache)
              | Ok md =>
                  (Ok (interp1d_call md m),
                   set_interp self (<[trt := md]> cache))
              end
          end
      end
  end.

(** [IntegrationDistance.__getitem__] *)
Definition IntegrationDistance_getitem (self : IntegrationDistance)
    (trt : string) : result Q :=
  (IntegrationDistance_call self trt None).1.

(** [IntegrationDistance.__len__] *)
Definition IntegrationDistance_len (self : IntegrationDistance) : nat :=
  size (dic self).

(** [IntegrationDistance.get_closest] *)
Definition get_closest (self : IntegrationDistance) (sites : SiteCollection)
    (rupture : Rupture) (distance_type : string)
  : result (SiteCollection * list Q) * IntegrationDistance :=
  match get_distances rupture (mesh sites) distance_type with
  | Raise e => (Raise e, self)
  | Ok distances =>
      if (size (dic self) =? 0)%nat then (Ok (sites, distances), self)
      else
        match IntegrationDistance_call self
                (rup_tectonic_region_type rupture) (Some (mag rupture)) with
        | (Raise e, self') => (Raise e, self')
        | (Ok maxdist, self') =>
            let mask := map (fun d => Qleb d maxdist) distances in
            if existsb id mask then
              (Ok (sc_filter sites mask, select mask distances), self')
            else (raise_new FarAwayRupture "", self')
        end
  end.

(** ** context *)

(** Modelled from the spec: [raise_] of python3compat is not part of the
    sources.  The wrapper hands it the class of the error, one string and
    the traceback, not the instance: the error raised is the one the class
    builds from that string, with that traceback.  A class that cannot be
    built from one string makes the construction itself fail with a
    TypeError, which has a traceback of its own. *)
Definition raise_ {A} (tp : exc_type) (value : string) (tb : list string)
  : result A :=
  if accepts_message tp then Raise (Exc tp value tb)
  else raise_new TypeError "function takes exactly 5 arguments (1 given)".

(** [with context(src): body], for a source whose identifier is
    [source_id]. *)
Definition context {A} (source_id : string) (body : result A) : result A :=
  match body with
  | Ok a => Ok a
  | Raise err =>
      let msg := ("An error occurred with source id=" ++ source_id
                  ++ ". Error: " ++ emsg err)%string in
      raise_ (etype err) msg (etb err)
  end.

(** ** Sources *)

Definition box : Type := Q * Q * Q * Q.

Record Source := {
  source_id : string;
  tectonic_region_type : string;
  get_bounding_box : Q -> box;
  filter_sites_by_distance_to_source :
    Q -> SiteCollection -> result (option SiteCollection);
  nsites : option nat }.

(** [src.nsites = n] *)
Definition set_nsites (src : Source) (n : nat) : Source :=
  {| source_id := source_id src;
     tectonic_region_type := tectonic_region_type src;
     get_bounding_box := get_bounding_box src;
     filter_sites_by_distance_to_source :=
       filter_sites_by_distance_to_source src;
     nsites := Some n |}.

(** ** The spatial index *)

(** The items of [rtree.index.Index]: an identifier and its bounding box,
    kept in the order in which the index enumerates them. *)
Definition Index : Type := list (nat * box).

Definition box_ok (b : box) : bool :=
  let '(minx, miny, maxx, maxy) := b in
  Qleb minx maxx && Qleb miny maxy.

Definition boxes_intersect (item query : box) : bool :=
  let '(iminx, iminy, imaxx, imaxy) := item in
  let '(minx, miny, maxx, maxy) := query in
  Qleb iminx maxx && Qleb minx imaxx && Qleb iminy maxy && Qleb miny imaxy.

(** The identifiers of the items a box meets. *)
Definition hits (idx : Index) (query : box) : list nat :=
  map fst (List.filter (fun item => boxes_intersect item.2 query) idx).

(** [index.intersection(coordinates)]: rtree refuses bounds that are not a
    sequence, and a box whose minimum exceeds its maximum. *)
Definition intersection (idx : Index) (coordinates : option box)
  : result (list nat) :=
  match coordinates with
  | None => raise_new TypeError "Bounds must be a sequence"
  | Some b =>
      if box_ok b then Ok (hits idx b)
      else raise_new RTreeError
             "Coordinates must not have minimums more than maximums"
  end.

(** [sorted] on site identifiers. *)
Definition sorted (ids : list nat) : list nat := merge_sort le ids.

(** ** SourceFilter *)

(** The attributes [idl] and [index] exist only when the index was built. *)
Record SourceFilter := {
  integration_distance : IntegrationDistance;
  sitecol : option SiteCollection;
  use_rtree : bool;
  idl : option bool;
  index : option Index }.

(** The constructor accepts a plain dictionary or an IntegrationDistance. *)
Definition wrap_distance (d : gmap string dist_value + IntegrationDistance)
  : IntegrationDistance :=
  match d with
  | inl dict => IntegrationDistance_init dict
  | inr obj => obj
  end.

Definition distance_nonempty (d : gmap string dist_value + IntegrationDistance)
  : bool :=
  match d with
  | inl dict => negb (size dict =? 0)%nat
  | inr obj => negb (IntegrationDistance_len obj =? 0)%nat
  end.

(** [SourceFilter.__init__]; [rtree] tells whether the rtree module could
    be imported, and [fix_lons_idl] is the helper of geo.utils, which is
    not part of the sources. *)
Definition SourceFilter_init (rtree : bool)
    (fix_lons_idl : list Q -> list Q * bool)
    (sc : option SiteCollection)
    (d : gmap string dist_value + IntegrationDistance)
    (use_rtree_arg : bool) : SourceFilter :=
  let ur := use_rtree_arg && rtree && distance_nonempty d &&
            match sc with
            | Some s => at_sea_level s
            | None => false
            end in
  match sc with
  | Some s =>
      if ur then
        let '(fixed_lons, flag) := fix_lons_idl (lons s) in
        {| integration_distance := wrap_distance d;
           sitecol := sc;
           use_rtree := true;
           idl := Some flag;
           index := Some (zip_with (fun sid p => (sid, (p.1, p.2, p.1, p.2)))
                            (sids s) (zip fixed_lons (lats s))) |}
      else
        {| integration_distance := wrap_distance d; sitecol := sc;
           use_rtree := false; idl := None; index := None |}
  | None =>
      {| integration_distance := wrap_distance d; sitecol := None;
         use_rtree := false; idl := None; index := None |}
  end.

(** [SourceFilter.get_affected_box]; the Python function returns [None]
    when no branch of the IDL fix applies. *)
Definition get_affected_box (self : SourceFilter) (src : Source)
  : result (option box) :=
  maxdist ← IntegrationDistance_getitem (integration_distance self)
              (tectonic_region_type src);
  let '(min_lon, min_lat, max_lon, max_lat) := get_bounding_box src maxdist in
  match idl self with
  | None =>
      raise_new AttributeError "'SourceFilter' object has no attribute 'idl'"
  | Some true =>
      if Qltb min_lon 0 && Qltb 0 max_lon then
        Ok (Some (max_lon, min_lat, min_lon + 360, max_lat))
      else if Qltb min_lon 0 && Qltb max_lon 0 then
        Ok (Some (min_lon + 360, min_lat, max_lon + 360, max_lat))
      else if Qltb 0 min_lon && Qltb 0 max_lon then
        Ok (Some (min_lon, min_lat, max_lon, max_lat))
      else if Qltb 0 min_lon && Qltb max_lon 0 then
        Ok (Some (max_lon + 360, min_lat, min_lon, max_lat))
      else Ok None
  | Some false => Ok (Some (min_lon, min_lat, max_lon, max_lat))
  end.

(** How a generator ends. *)
Inductive gen_end :=
| Done
| Raised (e : exc).

Definition pair : Type := Source * option SiteCollection.

(** The body of the loop of [SourceFilter.__call__] for one source: the
    pair it yields, if any. *)
Definition filter_source (self : SourceFilter) (sites : SiteCollection)
    (src : Source) : result (option pair) :=
  if use_rtree self then
    box ← get_affected_box self src;
    match index self with
    | None =>
        raise_new AttributeError
          "'SourceFilter' object has no attribute 'index'"
    | Some idx =>
        found ← intersection idx box;
        let sids := sorted found in
        if (0 <? length sids)%nat then
          Ok (Some (set_nsites src (length sids),
                    Some (FilteredSiteCollection sids (complete sites))))
        else Ok None
    end
  else if (IntegrationDistance_len (integration_distance self) =? 0)%nat then
    Ok (Some (src, Some sites))
  else
    maxdist ← (IntegrationDistance_call (integration_distance self)
                 (tectonic_region_type src) None).1;
    s_sites ← context (source_id src)
                (filter_sites_by_distance_to_source src maxdist sites);
    match s_sites with
    | Some s => Ok (Some (set_nsites src (len s), Some s))
    | None => Ok None
    end.

Fixpoint filter_loop (self : SourceFilter) (sites : SiteCollection)
    (sources : list Source) : list pair * gen_end :=
  match sources with
  | [] => ([], Done)
  | src :: rest =>
      match filter_source self sites src with
      | Raise e => ([], Raised e)
      | Ok None => filter_loop self sites rest
      | Ok (Some p) =>
          let '(out, fin) := filter_loop self sites rest in (p :: out, fin)
      end
  end.

(** [SourceFilter.__call__(sources, sites)] *)
Definition SourceFilter_call (self : SourceFilter) (sources : list Source)
    (sites : option SiteCollection) : list pair * gen_end :=
  match sitecol self with
  | None =>  (* do not filter *)
      (map (fun source => (source, sites)) sources, Done)
  | Some sc => filter_loop self (default sc sites) sources
  end.

(** [SourceFilter.get_close_sites] *)
Definition get_close_sites (self : SourceFilter) (source : Source)
  : result (option SiteCollection) :=
  match SourceFilter_call self [source] None with
  | (_, Raised e) => Raise e
  | ((_, s) :: _, Done) => Ok s
  | ([], Done) => Ok None
  end.

(** [SourceFilter.get_rectangle] *)
Definition get_rectangle (self : SourceFilter) (src : Source)
  : result (Q * Q * Q * Q) :=
  b ← get_affected_box self src;
  match b with
  | Some (min_lon, min_lat, max_lon, max_lat) =>
      Ok (min_lon, min_lat, max_lon - min_lon, max_lat - min_lat)
  | None => raise_new TypeError "'NoneType' object is not iterable"
  end.

(** [SourceFilter.__getstate__]: the dictionary that is pickled. *)
Record state := {
  st_integration_distance : IntegrationDistance;
  st_sitecol : option SiteCollection;
  st_use_rtree : bool }.

Definition getstate (self : SourceFilter) : state :=
  {| st_integration_distance := integration_distance self;
     st_sitecol := sitecol self;
     st_use_rtree := false |}.

(** Unpickling without a [__setstate__]: the attributes of the new object
    are exactly the entries of the pickled dictionary. *)
Definition setstate (st : state) : SourceFilter :=
  {| integration_distance := st_integration_distance st;
     sitecol := st_sitecol st;
     use_rtree := st_use_rtree st;
     idl := None;
     index := None |}.

(** [source_site_noop_filter = SourceFilter(None, {})] *)
Definition source_site_noop_filter (rtree : bool)
    (fix_lons_idl : list Q -> list Q * bool) : SourceFilter :=
  SourceFilter_init rtree fix_lons_idl None (inl ∅) true.

(** ** Notions used in the statements *)

(** The straight line through [(xl, yl)] and [(xh, yh)]. *)
Definition line (xl yl xh yh m : Q) : Q :=
  (yh - yl) / (xh - xl) * (m - xl) + yl.

Definition magdist_of (value : dist_value) : option (list (list Q)) :=
  match value with
  | MagDist l => Some (zip_star l)
  | Scalar _ => None
  end.

(** The invariant of an IntegrationDistance object: lists are sorted, the
    table of magnitudes and distances mirrors the dictionary, and every
    cached interpolator is the one its key would build. *)
Record table_ok (self : IntegrationDistance) : Prop := {
  ok_sorted : forall k l,
    dic self !! k = Some (MagDist l) -> StronglySorted pair_le l;
  ok_magdist : forall k, magdist self !! k = dic self !! k ≫= magdist_of;
  ok_cache : forall c k md,
    interp self = Some c -> c !! k = Some md ->
    getdefault (magdist self) k ≫= interp1d_new = Ok md }.

(** The lookup of [IntegrationDistance.__call__] without its cache. *)
Definition threshold (self : IntegrationDistance) (trt : string)
    (mag : option Q) : result Q :=
  value ← getdefault (dic self) trt;
  match value with
  | Scalar x => Ok x
  | MagDist l =>
      match mag with
      | None =>
          match last l with
          | Some p => Ok p.2
          | None => raise_new IndexError "list index out of range"
          end
      | Some m =>
          md ← getdefault (magdist self) trt ≫= interp1d_new;
          Ok (interp1d_call md m)
      end
  end.

(** ** Sample objects *)

(** The table of the docstring of IntegrationDistance. *)
Definition sample_dict : gmap string dist_value :=
  {[ "default"%string :=
       MagDist [(1, 10); (2, 20); (3, 30); (4, 40); (5, 100); (6, 200);
                (7, 400); (8, 800)] ]}.

Definition sample_maxdist : IntegrationDistance :=
  IntegrationDistance_init sample_dict.

Definition scalar_dict : gmap string dist_value :=
  {[ "default"%string := Scalar 200;
     "Stable Shallow Crust"%string := Scalar 50 ]}.

Definition scalar_maxdist : IntegrationDistance :=
  IntegrationDistance_init scalar_dict.



(** Three sites on the equator, at longitudes 0, 1 and 10. *)
Definition sample_sites : SiteCollection :=
  SiteCol [ {| lon := 0; lat := 0; sea_level := true |};
            {| lon := 1; lat := 0; sea_level := true |};
            {| lon := 10; lat := 0; sea_level := true |} ].

(** A rupture at longitude 0 whose distances grow by 111 km per degree; its
    hypocenter lies 500 km deeper. *)
Definition sample_surface : Surface :=
  {| get_min_distance := fun p => 111 * lon p;
     get_rx_distance := fun p => 111 * lon p;
     get_ry0_distance := fun p => 111 * lat p;
     get_joyner_boore_distance := fun p => 111 * lon p;
     get_azimuth := fun _ => 90 |}.

Definition sample_rupture (trt : string) : Rupture :=
  {| rup_tectonic_region_type := trt;
     mag := 6;
     surface := sample_surface;
     hypocenter := {| distance_to_mesh := fun _ p => 111 * lon p + 500 |};
     get_cdppvalue := fun _ => 0 |}.

(** Modelled from the spec: [fix_lons_idl] of geo.utils is not part of the
    sources.  It computes the date-line-corrected longitudes: when the
    longitudes cross the date line (opposite signs, more than 180 degrees
    apart) the negative ones are shifted by 360 and the flag is set. *)
Definition cross_idl (lon1 lon2 : Q) : bool :=
  Qltb (lon1 * lon2) 0 && Qltb 180 (Qabs (lon1 - lon2)).

Definition fix_lons_idl (lons : list Q) : list Q * bool :=
  match lons with
  | [] => (lons, false)
  | x :: rest =>
      let lo := foldr Qmin x rest in
      let hi := foldr Qmax x rest in
      if cross_idl lo hi then
        (map (fun l => if Qltb l 0 then l + 360 else l) lons, true)
      else (lons, false)
  end.

(** Two sites on either side of the date line, at longitudes -179.9 and
    170. *)
Definition idl_sites : SiteCollection :=
  SiteCol [ {| lon := -1799 # 10; lat := 0; sea_level := true |};
            {| lon := 170; lat := 0; sea_level := true |} ].

Definition idl_filter : SourceFilter :=
  SourceFilter_init true fix_lons_idl (Some idl_sites) (inl scalar_dict) true.

Definition sample_filter : SourceFilter :=
  SourceFilter_init true fix_lons_idl (Some sample_sites) (inl scalar_dict)
    true.

(** A source with a fixed enlarged bounding box; its own distance filter
    keeps the sites of the collection that lie in the box. *)
Definition in_box (b : box) (p : Site) : bool :=
  boxes_intersect (lon p, lat p, lon p, lat p) b.

Definition box_source (name : string) (b : box) : Source :=
  {| source_id := name;
     tectonic_region_type := "Active Shallow Crust";
     get_bounding_box := fun _ => b;
     filter_sites_by_distance_to_source := fun _ sites =>
       let mask := map (in_box b) (mesh sites) in
       if existsb id mask then Ok (Some (sc_filter sites mask)) else Ok None;
     nsites := None |}.

(** A source whose enlarged bounding box spans the antimeridian. *)
Definition antimeridian_source : Source :=
  box_source "src_idl" (170, -10, -170, 10).

(** The site identifiers the index returns for the affected box of a
    source, in the order of the index. *)
Definition affected_hits (self : SourceFilter) (idx : Index) (src : Source)
  : list nat :=
  match get_affected_box self src with
  | Ok (Some b) => hits idx b
  | _ => []
  end.

(** A source whose affected box exists and is accepted by the index. *)
Definition queryable (self : SourceFilter) (src : Source) : Prop :=
  exists b, get_affected_box self src = Ok (Some b) /\ box_ok b = true.

(** The pair the index path yields for a source: the source with [nsites]
    set to the number of identifiers, and the subset made of the identifiers
    in ascending order. *)
Definition yields_for (self : SourceFilter) (idx : Index)
    (sites : SiteCollection) (p : pair) (src : Source) : Prop :=
  exists ids,
    StronglySorted le ids /\ ids ≡ₚ affected_hits self idx src /\
    ids <> [] /\
    p = (set_nsites src (length ids),
         Some (FilteredSiteCollection ids (complete sites))).

(** *** The filter without index, in the words of the specification

    For a null site collection every source is paired with the sites of the
    caller.  Otherwise, for each source in order: with an empty distance
    table the pair (source, sites) is yielded unfiltered; else the maximum
    distance of the source's region type is looked up and the source's own
    distance filter is applied inside the wrapper [context], which raises
    any failure again; a non-null subset is yielded with [nsites] set, a
    null one makes the source be skipped. *)
Definition fallback_source (table : IntegrationDistance)
    (sites : SiteCollection) (src : Source) : result (option pair) :=
  if (size (dic table) =? 0)%nat then Ok (Some (src, Some sites))
  else
    maxdist ← threshold table (tectonic_region_type src) None;
    match context (source_id src)
            (filter_sites_by_distance_to_source src maxdist sites) with
    | Raise err => Raise err
    | Ok (Some subset) => Ok (Some (set_nsites src (len subset), Some subset))
    | Ok None => Ok None
    end.

Fixpoint fallback_loop (table : IntegrationDistance) (sites : SiteCollection)
    (sources : list Source) : list pair * gen_end :=
  match sources with
  | [] => ([], Done)
  | src :: rest =>
      match fallback_source table sites src with
      | Raise e => ([], Raised e)
      | Ok None => fallback_loop table sites rest
      | Ok (Some p) =>
          (p :: (fallback_loop table sites rest).1,
           (fallback_loop table sites rest).2)
      end
  end.

Definition geometric_fallback (table : IntegrationDistance)
    (sc : option SiteCollection) (sources : list Source)
    (sites : option SiteCollection) : list pair * gen_end :=
  match sc with
  | None => (map (fun src => (src, sites)) sources, Done)
  | Some all => fallback_loop table (default all sites) sources
  end.

(** A filter built where rtree cannot be imported. *)
Definition worker_filter : SourceFilter :=
  SourceFilter_init false fix_lons_idl (Some sample_sites) (inl scalar_dict)
    true.

(** A source whose own distance filter fails. *)
Definition failing_source : Source :=
  {| source_id := "src_42";
     tectonic_region_type := "Active Shallow Crust";
     get_bounding_box := fun _ => (0, 0, 1, 1);
     filter_sites_by_distance_to_source := fun _ _ =>
       Raise (Exc ValueError "degenerate polygon" ["polygon.py:17"%string]);
     nsites := None |}.

(** The index of [sample_filter]. *)
Definition sample_index : Index :=
  [(0%nat, (0, 0, 0, 0)); (1%nat, (1, 0, 1, 0)); (2%nat, (10, 0, 10, 0))].

(** A source whose box covers the first two sample sites although its own
    distance filter keeps none. *)
Definition distant_source : Source :=
  {| source_id := "distant";
     tectonic_region_type := "Active Shallow Crust";
     get_bounding_box := fun _ => (-1, -1, 2, 1);
     filter_sites_by_distance_to_source := fun _ _ => Ok None;
     nsites := None |}.

Definition near_source : Source := box_source "near" (-1, -1, 2, 1).
Definition far_source : Source := box_source "far" (50, -1, 60, 1).

(** ** Further notions *)

(** The names [get_distances] knows. *)
Definition supported_metrics : list string :=
  ["rrup"; "rx"; "ry0"; "rjb"; "rhypo"; "repi"; "rcdpp"; "azimuth"]%string.

(** The object after a history of lookups, each a region type and an
    optional magnitude. *)
Definition run_lookups (self : IntegrationDistance)
    (history : list (string * option Q)) : IntegrationDistance :=
  foldl (fun s q => (IntegrationDistance_call s q.1 q.2).2) self history.

(** The filter with another index. *)
Definition set_index (self : SourceFilter) (idx : Index) : SourceFilter :=
  {| integration_distance := integration_distance self;
     sitecol := sitecol self;
     use_rtree := use_rtree self;
     idl := idl self;
     index := Some idx |}.

(** Whether the path without index yields a pair for a source: the lookup
    of its maximum distance and its own filter return, the latter with a
    non-null subset. *)
Definition fallback_keeps (self : SourceFilter) (sites : SiteCollection)
    (src : Source) : bool :=
  match (IntegrationDistance_call (integration_distance self)
           (tectonic_region_type src) None).1 with
  | Ok maxdist =>
      match filter_sites_by_distance_to_source src maxdist sites with
      | Ok (Some _) => true
      | _ => false
      end
  | Raise _ => false
  end.

(** A table with an empty list entry. *)
Definition empty_list_dict : gmap string dist_value :=
  {[ "default"%string := MagDist [] ]}.


(** ** The interpolation in binary64 *)

#[local] Set Warnings "-inexact-float".

(** [numpy.searchsorted] on doubles. *)
Fixpoint searchsorted_b64 (xs : list float) (v : float) : nat :=
  match xs with
  | [] => 0
  | x :: xs' => if PrimFloat.ltb x v then S (searchsorted_b64 xs' v) else 0
  end.

(** Calling the interpolator as the code does, every operation rounded to
    binary64: [slope = (y_hi - y_lo) / (x_hi - x_lo)] and
    [y_new = slope * (x_new - x_lo) + y_lo]. *)
Definition interp1d_call_b64 (xs ys : list float) (x_new : float) : float :=
  let n := length xs in
  let i := Nat.min (Nat.max (searchsorted_b64 xs x_new) 1) (n - 1) in
  let lo := (i - 1)%nat in
  let hi := i in
  let x_lo := nth lo xs 0%float in
  let x_hi := nth hi xs 0%float in
  let y_lo := nth lo ys 0%float in
  let y_hi := nth hi ys 0%float in
  let slope := PrimFloat.div (PrimFloat.sub y_hi y_lo)
                 (PrimFloat.sub x_hi x_lo) in
  PrimFloat.add (PrimFloat.mul slope (PrimFloat.sub x_new x_lo)) y_lo.

(** The lookup with a magnitude for a list entry, in binary64: the
    interpolator built from the magnitudes and the distances of the sorted
    list, called on the magnitude. *)
Definition lookup_b64 (value : list (float * float)) (mag : float) : float :=
  interp1d_call_b64 (map fst value) (map snd value) mag.



(** The table of the docstring of IntegrationDistance, in doubles. *)
Definition docstring_table_b64 : list (float * float) :=
  [(1, 10); (2, 20); (3, 30); (4, 40); (5, 100); (6, 200); (7, 400);
   (8, 800)]%float.


(** A source whose own distance filter fails while decoding a string. *)
Definition undecodable_source : Source :=
  {| source_id := "src_7";
     tectonic_region_type := "Active Shallow Crust";
     get_bounding_box := fun _ => (0, 0, 1, 1);
     filter_sites_by_distance_to_source := fun _ _ =>
       Raise (Exc UnicodeDecodeError
                "'utf-8' codec can't decode byte 0xff in position 0"
                ["geo.py:12"%string]);
     nsites := None |}.

(** * Properties *)

(** ** The wrapper always raises again *)

Lemma context_raises {A} id (err : exc) :
  exists e, context (A := A) id (Raise err) = Raise e.
Proof.
  unfold context, raise_. destruct (accepts_message (etype err));
    eexists; reflexivity.
Qed.

(** ** Comparisons *)

Lemma Qleb_le x y : Qleb x y = true <-> x <= y.
Proof. apply Qle_bool_iff. Qed.

Lemma Qleb_gt x y : Qleb x y = false <-> y < x.
Proof.
  unfold Qleb. split; intros H.
  - apply Qnot_le_lt. intros Hle. apply Qle_bool_iff in Hle. congruence.
  - destruct (Qle_bool x y) eqn:E; [|done].
    apply Qle_bool_iff in E. lra.
Qed.

Lemma Qltb_lt x y : Qltb x y = true <-> x < y.
Proof.
  unfold Qltb. rewrite negb_true_iff. apply (Qleb_gt y x).
Qed.

Lemma Qltb_ge x y : Qltb x y = false <-> y <= x.
Proof.
  unfold Qltb. rewrite negb_false_iff. apply Qle_bool_iff.
Qed.

(** ** Linear interpolation *)












(** The interpolator is the line of the segment it selects. *)
Lemma interp1d_call_line f m :
  interp1d_call f m =
  let i := Nat.min (Nat.max (searchsorted (ix f) m) 1) (length (ix f) - 1) in
  line (nth (i - 1) (ix f) 0) (nth (i - 1) (iy f) 0)
       (nth i (ix f) 0) (nth i (iy f) 0) m.
Proof. reflexivity. Qed.



(** ** The order of the pairs and the sort *)

Lemma pair_le_iff p q :
  pair_le p q <-> p.1 < q.1 \/ (p.1 == q.1 /\ p.2 <= q.2).
Proof.
  unfold pair_le, pair_leb.
  rewrite orb_True, andb_True, !Is_true_true.
  rewrite Qltb_lt, Qeq_bool_iff, Qleb_le. tauto.
Qed.

#[local] Instance pair_le_trans : Transitive pair_le.
Proof.
  intros p q r. rewrite !pair_le_iff. intros [?|[? ?]] [?|[? ?]].
  - left. lra.
  - left. lra.
  - left. lra.
  - right. split; lra.
Qed.

#[local] Instance pair_le_total : Total pair_le.
Proof.
  intros p q. rewrite !pair_le_iff.
  destruct (Q_dec p.1 q.1) as [[?|?]|?].
  - left. left. done.
  - right. left. done.
  - destruct (Qlt_le_dec q.2 p.2).
    + right. right. split; lra.
    + left. right. split; lra.
Qed.


Lemma sort_pairs_sorted l : StronglySorted pair_le (sort_pairs l).
Proof. apply StronglySorted_merge_sort; apply _. Qed.

Lemma sort_pairs_perm l : sort_pairs l ≡ₚ l.
Proof. apply merge_sort_Permutation. Qed.


(** ** The invariant of IntegrationDistance *)

Lemma init_table_ok d : table_ok (IntegrationDistance_init d).
Proof.
  split; simpl.
  - intros k l. rewrite lookup_fmap.
    destruct (d !! k) as [[x|l0]|]; simpl; intros ?; simplify_eq.
    apply sort_pairs_sorted.
  - intros k. rewrite lookup_omap, lookup_fmap.
    by destruct (d !! k) as [[x|l0]|].
  - done.
Qed.

Lemma call_dic self trt mag :
  dic (IntegrationDistance_call self trt mag).2 = dic self /\
  magdist (IntegrationDistance_call self trt mag).2 = magdist self.
Proof.
  unfold IntegrationDistance_call.
  repeat case_match; simpl; done.
Qed.

(** Without a magnitude the object is left as it was. *)
Lemma call_nomag_state self trt :
  (IntegrationDistance_call self trt None).2 = self.
Proof.
  unfold IntegrationDistance_call. repeat case_match; done.
Qed.

Lemma cache_default_ok self k md :
  table_ok self -> default ∅ (interp self) !! k = Some md ->
  getdefault (magdist self) k ≫= interp1d_new = Ok md.
Proof.
  intros Hok Hk. destruct (interp self) as [c|] eqn:Hi; simpl in Hk.
  - by eapply ok_cache.
  - by rewrite lookup_empty in Hk.
Qed.

(** What a call can do to the cache. *)
Lemma call_cache self trt mag c :
  interp (IntegrationDistance_call self trt mag).2 = Some c ->
  interp self = Some c \/ c = default ∅ (interp self) \/
  exists md, c = <[trt := md]> (default ∅ (interp self)) /\
             getdefault (magdist self) trt ≫= interp1d_new = Ok md.
Proof.
  unfold IntegrationDistance_call.
  destruct (getdefault (dic self) trt) as [[x|l]|e]; simpl; auto.
  destruct mag as [m|]; [|destruct (last l); simpl; auto].
  destruct (default ∅ (interp self) !! trt) as [md|]; simpl.
  { intros ?; simplify_eq. auto. }
  destruct (getdefault (magdist self) trt ≫= interp1d_new) as [md|e] eqn:E;
    simpl; intros ?; simplify_eq; eauto.
Qed.

Lemma call_table_ok self trt mag :
  table_ok self -> table_ok (IntegrationDistance_call self trt mag).2.
Proof.
  intros Hok.
  destruct (call_dic self trt mag) as [Hd Hmd].
  split.
  - rewrite Hd. apply (ok_sorted self Hok).
  - rewrite Hd, Hmd. apply (ok_magdist self Hok).
  - rewrite Hmd. intros c k md Hi Hk.
    apply call_cache in Hi as [Hi|[->|(md' & -> & Hmd')]].
    + by eapply ok_cache.
    + by apply cache_default_ok.
    + destruct (decide (trt = k)) as [->|Hne].
      * rewrite lookup_insert_eq in Hk. by simplify_eq.
      * rewrite lookup_insert_ne in Hk by done. by apply cache_default_ok.
Qed.




(** The cache never changes what a lookup returns. *)
Lemma call_threshold self trt mag :
  table_ok self ->
  (IntegrationDistance_call self trt mag).1 = threshold self trt mag.
Proof.
  intros Hok. unfold IntegrationDistance_call, threshold.
  destruct (getdefault (dic self) trt) as [[x|l]|e]; simpl; [done| |done].
  destruct mag as [m|]; [|by destruct (last l)].
  destruct (default ∅ (interp self) !! trt) as [md|] eqn:Hc.
  - rewrite (cache_default_ok self trt md Hok Hc). done.
  - by destruct (getdefault (magdist self) trt ≫= interp1d_new).
Qed.



(** The doctest of the class: [maxdist('Some TRT', mag=5.5)] is 150. *)
Example sample_maxdist_doctest :
  exists r, (IntegrationDistance_call sample_maxdist "Some TRT"
               (Some (11 # 2))).1 = Ok r /\ r == 150.
Proof. eexists. split; [vm_compute; reflexivity|reflexivity]. Qed.



(** A list entry without any pair has no largest magnitude: the lookup
    without magnitude raises IndexError. *)
Lemma call_empty_list self trt :
  getdefault (dic self) trt = Ok (MagDist []) ->
  exists e, IntegrationDistance_call self trt None = (Raise e, self) /\
            etype e = IndexError.
Proof.
  intros Hv. unfold IntegrationDistance_call. rewrite Hv. simpl.
  eexists. split; reflexivity.
Qed.

(** ** Monotonicity of the magnitude-dependent distance *)

(** Beyond the largest magnitude the last segment is prolonged, before the
    smallest one the first segment: values are extrapolated, not clamped. *)
Lemma interp1d_call_above f m :
  (forall x, x ∈ ix f -> x < m) ->
  interp1d_call f m =
  let n := length (ix f) in
  let i := Nat.min (Nat.max n 1) (n - 1) in
  line (nth (i - 1) (ix f) 0) (nth (i - 1) (iy f) 0)
       (nth i (ix f) 0) (nth i (iy f) 0) m.
Proof.
  intros Hall. rewrite interp1d_call_line.
  assert (searchsorted (ix f) m = length (ix f)) as ->; [|done].
  induction (ix f) as [|x xs IH]; [done|]. simpl.
  assert (Qltb x m = true) as -> by (apply Qltb_lt, Hall; left).
  f_equal. apply IH. intros y Hy. apply Hall. by right.
Qed.

Lemma interp1d_call_below f x x' xs m :
  ix f = x :: x' :: xs -> m <= x ->
  interp1d_call f m =
  line (nth 0 (ix f) 0) (nth 0 (iy f) 0) (nth 1 (ix f) 0) (nth 1 (iy f) 0) m.
Proof.
  intros Hx Hm. rewrite interp1d_call_line.
  assert (searchsorted (ix f) m = 0%nat) as ->.
  { rewrite Hx. simpl. by apply Qltb_ge in Hm as ->. }
  rewrite Hx. reflexivity.
Qed.

(** On the table of the docstring, magnitude 9 lies beyond the last pair
    (8, 800) and receives 1200, magnitude 0 receives 0. *)
Example sample_maxdist_extrapolates :
  exists hi lo,
    (IntegrationDistance_call sample_maxdist "Some TRT" (Some 9)).1 = Ok hi /\
    (IntegrationDistance_call sample_maxdist "Some TRT" (Some 0)).1 = Ok lo /\
    hi == 1200 /\ lo == 0.
Proof.
  do 2 eexists. repeat split; try (vm_compute; reflexivity).
Qed.



(** In binary64 too the doctest of the class gives 150 at magnitude 5.5. *)
Example lookup_b64_doctest : lookup_b64 docstring_table_b64 5.5 = 150%float.
Proof. vm_compute. reflexivity. Qed.


(** ** get_closest *)

Lemma select_filter {A} (f : A -> bool) (a : list A) :
  select (map f a) a = List.filter f a.
Proof.
  induction a as [|x a IH]; [done|]. simpl. destruct (f x); by rewrite IH.
Qed.

(** Selecting identifiers with a mask computed from the distances keeps the
    identifiers whose own distance passes. *)
Lemma select_zip {A B} (f : B -> bool) (ids : list A) (ds : list B) :
  select (map f ds) ids =
  map fst (List.filter (fun sd => f sd.2) (zip ids ds)).
Proof.
  revert ids. induction ds as [|d ds IH]; intros [|i ids]; simpl; try done.
  destruct (f d); simpl; by rewrite IH.
Qed.

Lemma existsb_mask (t : Q) (ds : list Q) :
  existsb id (map (fun d => Qleb d t) ds) = true <->
  Exists (fun d => d <= t) ds.
Proof.
  induction ds as [|d ds IH]; simpl.
  - split; [done|]. by intros ?%Exists_nil.
  - rewrite Exists_cons, orb_true_iff, IH. unfold id.
    by rewrite Qleb_le.
Qed.

Lemma not_existsb_mask (t : Q) (ds : list Q) :
  existsb id (map (fun d => Qleb d t) ds) = false <->
  Forall (fun d => t < d) ds.
Proof.
  induction ds as [|d ds IH]; simpl.
  - split; [constructor|done].
  - rewrite Forall_cons, orb_false_iff, IH. unfold id.
    by rewrite Qleb_gt.
Qed.

(** No lookup raises FarAwayRupture. *)
Lemma call_not_far_away self trt mag e :
  (IntegrationDistance_call self trt mag).1 = Raise e ->
  etype e <> FarAwayRupture.
Proof.
  unfold IntegrationDistance_call, getdefault, interp1d_new, raise_new.
  repeat (case_match; simpl in *; simplify_eq; try done);
    intros ?; by simplify_eq.
Qed.

(** C4: with an empty dictionary get_closest returns all the sites and all
    the distances; otherwise, for the threshold [t] of the rupture's region
    type and magnitude, it returns the sites whose distance is at most [t]
    with their distances when there is one, and raises FarAwayRupture when
    there is none; FarAwayRupture is raised in no other case. *)
Theorem C4_get_closest (self : IntegrationDistance) (sites : SiteCollection)
    (rupture : Rupture) (distance_type : string) (distances : list Q) :
  get_distances rupture (mesh sites) distance_type = Ok distances ->
  let lookup := IntegrationDistance_call self
                  (rup_tectonic_region_type rupture) (Some (mag rupture)) in
  (size (dic self) = 0%nat ->
   get_closest self sites rupture distance_type
     = (Ok (sites, distances), self)) /\
  (size (dic self) <> 0%nat -> forall t, lookup.1 = Ok t ->
   (Exists (fun d => d <= t) distances ->
    exists close,
      get_closest self sites rupture distance_type
        = (Ok (close, List.filter (fun d => Qleb d t) distances), lookup.2) /\
      sids close =
        map fst (List.filter (fun sd => Qleb sd.2 t)
                   (zip (sids sites) distances)) /\
      complete close = complete sites) /\
   (Forall (fun d => t < d) distances ->
    exists e,
      get_closest self sites rupture distance_type = (Raise e, lookup.2) /\
      etype e = FarAwayRupture)) /\
  (forall e,
     (get_closest self sites rupture distance_type).1 = Raise e ->
     etype e = FarAwayRupture ->
     size (dic self) <> 0%nat /\
     exists t, lookup.1 = Ok t /\ Forall (fun d => t < d) distances).
Proof.
  intros Hd lookup. unfold get_closest. rewrite Hd. fold lookup.
  split; [|split].
  - intros ->. done.
  - intros Hsize t Ht. apply Nat.eqb_neq in Hsize. rewrite Hsize.
    destruct lookup as [r self'] eqn:E. simpl in Ht. subst r. simpl.
    split.
    + intros Hex. apply existsb_mask in Hex. rewrite Hex.
      eexists. split; [by rewrite select_filter|].
      split; [|done].
      exact (select_zip (fun d => Qleb d t) (sids sites) distances).
    + intros Hall. apply not_existsb_mask in Hall. rewrite Hall.
      eexists. split; reflexivity.
  - intros e. destruct (size (dic self) =? 0)%nat eqn:Hsize; [done|].
    apply Nat.eqb_neq in Hsize.
    pose proof (call_not_far_away self (rup_tectonic_region_type rupture)
                  (Some (mag rupture))) as Hnot.
    fold lookup in Hnot.
    destruct lookup as [[t|e'] self'] eqn:E; simpl in *.
    + destruct (existsb id _) eqn:Hex; simpl; [done|].
      intros _ _. split; [done|]. exists t. split; [done|].
      by apply not_existsb_mask.
    + intros ? Hfar. simplify_eq. by destruct (Hnot e).
Qed.

Lemma C4_get_closest_witness :
  (get_closest (IntegrationDistance_init ∅) sample_sites
     (sample_rupture "Active") "rrup"
   = (Ok (sample_sites, [111 * 0; 111 * 1; 111 * 10]),
      IntegrationDistance_init ∅)) /\
  (exists close,
     get_closest scalar_maxdist sample_sites (sample_rupture "Active") "rrup"
       = (Ok (close, List.filter (fun d => Qleb d 200)
                       [111 * 0; 111 * 1; 111 * 10]), scalar_maxdist) /\
     sids close = [0; 1]%nat /\ complete close = complete sample_sites) /\
  (exists e,
     get_closest scalar_maxdist sample_sites
       (sample_rupture "Stable Shallow Crust") "rhypo"
       = (Raise e, scalar_maxdist) /\
     etype e = FarAwayRupture).
Proof.
  split; [|split].
  - apply (C4_get_closest (IntegrationDistance_init ∅) sample_sites
             (sample_rupture "Active") "rrup"); reflexivity.
  - destruct (C4_get_closest scalar_maxdist sample_sites
                (sample_rupture "Active") "rrup"
                [111 * 0; 111 * 1; 111 * 10] eq_refl) as (_ & H & _).
    destruct (H ltac:(vm_compute; discriminate) 200 ltac:(vm_compute; reflexivity))
      as [Hnear _].
    apply Hnear. apply Exists_cons_hd. vm_compute. discriminate.
  - destruct (C4_get_closest scalar_maxdist sample_sites
                (sample_rupture "Stable Shallow Crust") "rhypo"
                [111 * 0 + 500; 111 * 1 + 500; 111 * 10 + 500] eq_refl)
      as (_ & H & _).
    destruct (H ltac:(vm_compute; discriminate) 50 ltac:(vm_compute; reflexivity))
      as [_ Hfar].
    apply Hfar. repeat constructor.
Defined.

(** ** The constructor of SourceFilter *)

(** A filter built with the index has a site collection, an index and the
    IDL flag. *)
Lemma init_use_rtree rtree fix_lons sc d use_rtree_arg :
  use_rtree (SourceFilter_init rtree fix_lons sc d use_rtree_arg) = true ->
  exists s idx flag,
    sitecol (SourceFilter_init rtree fix_lons sc d use_rtree_arg) = Some s /\
    index (SourceFilter_init rtree fix_lons sc d use_rtree_arg) = Some idx /\
    idl (SourceFilter_init rtree fix_lons sc d use_rtree_arg) = Some flag /\
    at_sea_level s = true /\ rtree = true /\ distance_nonempty d = true.
Proof.
  unfold SourceFilter_init. destruct sc as [s|]; [|done].
  destruct (use_rtree_arg && rtree && distance_nonempty d && at_sea_level s)
    eqn:E; [|done].
  destruct (fix_lons (lons s)) as [fixed flag]. simpl. intros _.
  apply andb_true_iff in E as [E Hsea].
  apply andb_true_iff in E as [E Hd].
  apply andb_true_iff in E as [_ Hr].
  eexists s, _, flag. repeat split; done.
Qed.

(** The no-operation filter passes every source through. *)
Lemma noop_filter_passes rtree fix_lons sources sites :
  SourceFilter_call (source_site_noop_filter rtree fix_lons) sources sites
  = (map (fun src => (src, sites)) sources, Done).
Proof. reflexivity. Qed.

(** ** The affected box *)

(** C1: with the IDL flag set, the enlarged box of a source is remapped by
    the four-way split on the signs of its longitudes; with the flag
    cleared the box is returned as it is. *)
Theorem C1_get_affected_box (self : SourceFilter) (src : Source)
    (maxdist min_lon min_lat max_lon max_lat : Q) :
  IntegrationDistance_getitem (integration_distance self)
    (tectonic_region_type src) = Ok maxdist ->
  get_bounding_box src maxdist = (min_lon, min_lat, max_lon, max_lat) ->
  (idl self = Some true ->
   (min_lon < 0 -> 0 < max_lon ->
    get_affected_box self src
      = Ok (Some (max_lon, min_lat, min_lon + 360, max_lat))) /\
   (min_lon < 0 -> max_lon < 0 ->
    get_affected_box self src
      = Ok (Some (min_lon + 360, min_lat, max_lon + 360, max_lat))) /\
   (0 < min_lon -> 0 < max_lon ->
    get_affected_box self src
      = Ok (Some (min_lon, min_lat, max_lon, max_lat))) /\
   (0 < min_lon -> max_lon < 0 ->
    get_affected_box self src
      = Ok (Some (max_lon + 360, min_lat, min_lon, max_lat)))) /\
  (idl self = Some false ->
   get_affected_box self src = Ok (Some (min_lon, min_lat, max_lon, max_lat))).
Proof.
  intros Hmax Hbox. unfold get_affected_box. rewrite Hmax. simpl.
  rewrite Hbox. split.
  - intros ->. repeat split; intros H1 H2.
    + apply Qltb_lt in H1, H2. by rewrite H1, H2.
    + assert (Qltb 0 max_lon = false) as Hn by (apply Qltb_ge; lra).
      apply Qltb_lt in H1, H2. by rewrite H1, H2, Hn.
    + assert (Qltb min_lon 0 = false) as Hn by (apply Qltb_ge; lra).
      apply Qltb_lt in H1, H2. by rewrite H1, H2, Hn.
    + assert (Qltb min_lon 0 = false) as Hn by (apply Qltb_ge; lra).
      assert (Qltb 0 max_lon = false) as Hn' by (apply Qltb_ge; lra).
      apply Qltb_lt in H1, H2. by rewrite H1, H2, Hn, Hn'.
  - by intros ->.
Qed.

Lemma C1_get_affected_box_witness :
  get_affected_box idl_filter (box_source "a" (-170, -10, 170, 10))
    = Ok (Some (170, -10, -170 + 360, 10)) /\
  get_affected_box idl_filter (box_source "b" (-175, -10, -170, 10))
    = Ok (Some (-175 + 360, -10, -170 + 360, 10)) /\
  get_affected_box idl_filter (box_source "c" (160, -10, 170, 10))
    = Ok (Some (160, -10, 170, 10)) /\
  get_affected_box idl_filter antimeridian_source
    = Ok (Some (-170 + 360, -10, 170, 10)) /\
  get_affected_box sample_filter antimeridian_source
    = Ok (Some (170, -10, -170, 10)).
Proof.
  split; [|split; [|split; [|split]]].
  - destruct (C1_get_affected_box idl_filter
                (box_source "a" (-170, -10, 170, 10))
                200 (-170) (-10) 170 10) as [H _];
      [vm_compute; reflexivity|reflexivity|].
    destruct (H ltac:(vm_compute; reflexivity)) as (H1 & _).
    apply H1; reflexivity.
  - destruct (C1_get_affected_box idl_filter
                (box_source "b" (-175, -10, -170, 10))
                200 (-175) (-10) (-170) 10) as [H _];
      [vm_compute; reflexivity|reflexivity|].
    destruct (H ltac:(vm_compute; reflexivity)) as (_ & H2 & _).
    apply H2; reflexivity.
  - destruct (C1_get_affected_box idl_filter
                (box_source "c" (160, -10, 170, 10))
                200 160 (-10) 170 10) as [H _];
      [vm_compute; reflexivity|reflexivity|].
    destruct (H ltac:(vm_compute; reflexivity)) as (_ & _ & H3 & _).
    apply H3; reflexivity.
  - destruct (C1_get_affected_box idl_filter antimeridian_source
                200 170 (-10) (-170) 10) as [H _];
      [vm_compute; reflexivity|reflexivity|].
    destruct (H ltac:(vm_compute; reflexivity)) as (_ & _ & _ & H4).
    apply H4; reflexivity.
  - destruct (C1_get_affected_box sample_filter antimeridian_source
                200 170 (-10) (-170) 10) as [_ H];
      [vm_compute; reflexivity|reflexivity|].
    apply H. vm_compute. reflexivity.
Defined.

(** Without the index the attribute [idl] does not exist and the box cannot
    be computed. *)
Lemma get_affected_box_no_idl self src maxdist :
  IntegrationDistance_getitem (integration_distance self)
    (tectonic_region_type src) = Ok maxdist ->
  idl self = None ->
  exists e, get_affected_box self src = Raise e /\ etype e = AttributeError.
Proof.
  intros Hmax Hidl. unfold get_affected_box. rewrite Hmax. simpl.
  destruct (get_bounding_box src maxdist) as [[[a b] c] d].
  rewrite Hidl. eexists. split; reflexivity.
Qed.

(** ** The generator of SourceFilter *)

Lemma filter_loop_app self sites before after :
  filter_loop self sites (before ++ after) =
  match filter_loop self sites before with
  | (out, Done) =>
      ((out ++ (filter_loop self sites after).1),
       (filter_loop self sites after).2)
  | (out, Raised e) => (out, Raised e)
  end.
Proof.
  induction before as [|src before IH]; simpl.
  - by destruct (filter_loop self sites after).
  - destruct (filter_source self sites src) as [[p|]|e]; [|done|done].
    rewrite IH. by destruct (filter_loop self sites before) as [out [|e]].
Qed.

(** C9: with the IDL flag set, a box whose minimum or maximum longitude is
    zero matches none of the four branches: get_affected_box returns None,
    the query of the index fails on it, and the generator ends with that
    error at this source, which is neither yielded nor skipped. *)
Theorem C9_zero_longitude (self : SourceFilter) (src : Source)
    (maxdist min_lon min_lat max_lon max_lat : Q) :
  idl self = Some true ->
  IntegrationDistance_getitem (integration_distance self)
    (tectonic_region_type src) = Ok maxdist ->
  get_bounding_box src maxdist = (min_lon, min_lat, max_lon, max_lat) ->
  min_lon == 0 \/ max_lon == 0 ->
  get_affected_box self src = Ok None /\
  (use_rtree self = true -> forall idx, index self = Some idx ->
   forall sites before after out,
     filter_loop self sites before = (out, Done) ->
     exists e,
       filter_source self sites src = Raise e /\ etype e = TypeError /\
       filter_loop self sites (before ++ src :: after) = (out, Raised e)).
Proof.
  intros Hidl Hmax Hbox Hzero.
  assert (get_affected_box self src = Ok None) as Hnone.
  { unfold get_affected_box. rewrite Hmax. simpl. rewrite Hbox, Hidl.
    destruct Hzero as [Hz|Hz].
    - assert (Qltb min_lon 0 = false) as -> by (apply Qltb_ge; lra).
      assert (Qltb 0 min_lon = false) as -> by (apply Qltb_ge; lra).
      done.
    - assert (Qltb max_lon 0 = false) as -> by (apply Qltb_ge; lra).
      assert (Qltb 0 max_lon = false) as -> by (apply Qltb_ge; lra).
      by rewrite !andb_false_r. }
  split; [done|].
  intros Hrt idx Hidx sites before after out Hbefore.
  assert (filter_source self sites src
          = Raise (Exc TypeError "Bounds must be a sequence" [])) as Hsrc.
  { unfold filter_source. by rewrite Hrt, Hnone, Hidx. }
  eexists. split; [exact Hsrc|]. split; [done|].
  rewrite filter_loop_app, Hbefore. simpl. rewrite Hsrc. simpl.
  by rewrite app_nil_r.
Qed.

Lemma C9_zero_longitude_witness :
  get_affected_box idl_filter (box_source "zero" (0, -10, 5, 10)) = Ok None /\
  exists e,
    filter_source idl_filter idl_sites (box_source "zero" (0, -10, 5, 10))
      = Raise e /\
    etype e = TypeError /\
    filter_loop idl_filter idl_sites
      ([] ++ box_source "zero" (0, -10, 5, 10) :: [antimeridian_source])
      = ([], Raised e).
Proof.
  destruct (C9_zero_longitude idl_filter (box_source "zero" (0, -10, 5, 10))
              200 0 (-10) 5 10) as [Hnone Hgen].
  - vm_compute. reflexivity.
  - vm_compute. reflexivity.
  - reflexivity.
  - left. reflexivity.
  - split; [exact Hnone|].
    eapply Hgen; [reflexivity|vm_compute; reflexivity|reflexivity].
Defined.

(** ** The index path *)

Lemma merge_sort_length (ids : list nat) : length (sorted ids) = length ids.
Proof. apply Permutation_length, merge_sort_Permutation. Qed.

Lemma sorted_sorted (ids : list nat) : StronglySorted le (sorted ids).
Proof. apply StronglySorted_merge_sort; apply _. Qed.

Lemma get_affected_box_set_nsites self src n :
  get_affected_box self (set_nsites src n) = get_affected_box self src.
Proof. reflexivity. Qed.

Section IndexPath.

(** A filter on the index path, over the site collection [sc] and with the
    index [idx]. *)
Context (self : SourceFilter) (sc : SiteCollection) (idx : Index).
Hypothesis Hsc : sitecol self = Some sc.
Hypothesis Hrt : use_rtree self = true.
Hypothesis Hidx : index self = Some idx.

(** The loop body for a source whose box can be queried. *)
Lemma filter_source_rtree sites src b :
  get_affected_box self src = Ok (Some b) -> box_ok b = true ->
  filter_source self sites src =
  if (0 <? length (hits idx b))%nat then
    Ok (Some (set_nsites src (length (sorted (hits idx b))),
              Some (FilteredSiteCollection (sorted (hits idx b))
                      (complete sites))))
  else Ok None.
Proof.
  intros Hbox Hok. unfold filter_source.
  rewrite Hrt, Hbox. simpl. rewrite Hidx. simpl. rewrite Hok. simpl.
  by rewrite merge_sort_length.
Qed.

(** When the box of every source can be queried, the generator ends
    normally and its pairs are, in the order of the input, those of the
    sources whose box meets a site. *)
Lemma index_path_all_queryable (sources : list Source)
    (sites : option SiteCollection) :
  Forall (queryable self) sources ->
  exists out,
    SourceFilter_call self sources sites = (out, Done) /\
    Forall2 (yields_for self idx (default sc sites)) out
      (List.filter
         (fun src => (0 <? length (affected_hits self idx src))%nat)
         sources) /\
    (forall src, src ∈ sources -> affected_hits self idx src = [] ->
     forall p n, p ∈ out -> p.1 <> set_nsites src n).
Proof.
  intros Hall. unfold SourceFilter_call. rewrite Hsc.
  set (s := default sc sites).
  assert (exists out,
            filter_loop self s sources = (out, Done) /\
            Forall2 (yields_for self idx s) out
              (List.filter
                 (fun src => (0 <? length (affected_hits self idx src))%nat)
                 sources)) as (out & Hout & Hpairs).
  { induction Hall as [|src sources (b & Hbox & Hok) Hall IH]; simpl.
    - exists []. split; [done|constructor].
    - destruct IH as (out & Hout & Hpairs).
      rewrite (filter_source_rtree s src b) by done.
      unfold affected_hits at 1. rewrite Hbox.
      destruct (0 <? length (hits idx b))%nat eqn:Hn.
      + rewrite Hout. eexists. split; [done|]. constructor; [|done].
        exists (sorted (hits idx b)). split; [apply sorted_sorted|].
        split; [unfold affected_hits; rewrite Hbox;
                apply merge_sort_Permutation|].
        split; [|done]. intros Hnil.
        apply Nat.ltb_lt in Hn. rewrite <- merge_sort_length, Hnil in Hn.
        simpl in Hn. lia.
      + exists out. done. }
  exists out. split; [done|]. split; [done|].
  intros src Hsrc Hnone p n Hp Heq.
  apply list_elem_of_lookup in Hp as [i Hp].
  destruct (Forall2_lookup_l _ _ _ _ _ Hpairs Hp)
    as (src' & Hsrc' & (ids & _ & Hperm & Hne & ->)).
  simpl in Heq.
  assert (affected_hits self idx src' = affected_hits self idx src) as Hsame.
  { unfold affected_hits.
    rewrite <- (get_affected_box_set_nsites self src' (length ids)), Heq.
    by rewrite get_affected_box_set_nsites. }
  rewrite Hsame, Hnone in Hperm. by apply Permutation_nil_r in Hperm.
Qed.

(** The loop body fails on a source that is not queryable. *)
Lemma filter_source_not_queryable sites src :
  ~ queryable self src ->
  exists e, filter_source self sites src = Raise e.
Proof.
  intros Hnot. unfold filter_source. rewrite Hrt.
  destruct (get_affected_box self src) as [[b|]|e] eqn:Hbox; simpl.
  - rewrite Hidx. simpl. destruct (box_ok b) eqn:Hok.
    + destruct Hnot. by exists b.
    + eexists. reflexivity.
  - rewrite Hidx. eexists. reflexivity.
  - eexists. reflexivity.
Qed.

Lemma queryable_dec src : queryable self src \/ ~ queryable self src.
Proof.
  unfold queryable.
  destruct (get_affected_box self src) as [[b|]|e] eqn:Hbox.
  - destruct (box_ok b) eqn:Hok.
    + left. by exists b.
    + right. intros (b' & ? & ?). simplify_eq. congruence.
  - right. by intros (b' & ? & ?).
  - right. by intros (b' & ? & ?).
Qed.

End IndexPath.

(** C3: on the index path the generator goes through the sources in the
    order of the input, up to the first one whose box cannot be queried, if
    any.  Its pairs are, in that order, those of the sources whose box
    meets a site: each pair carries the identifiers found, in ascending
    order, and the source with [nsites] set to their number.  A source
    whose box meets no site has no pair.  The generator ends normally when
    every source was gone through. *)
Theorem C3_index_path (self : SourceFilter) (sc : SiteCollection)
    (idx : Index) (sources : list Source) (sites : option SiteCollection) :
  sitecol self = Some sc -> use_rtree self = true -> index self = Some idx ->
  exists out fin processed rest,
    SourceFilter_call self sources sites = (out, fin) /\
    sources = processed ++ rest /\
    Forall (queryable self) processed /\
    Forall2 (yields_for self idx (default sc sites)) out
      (List.filter
         (fun src => (0 <? length (affected_hits self idx src))%nat)
         processed) /\
    (forall src, src ∈ processed -> affected_hits self idx src = [] ->
     forall p n, p ∈ out -> p.1 <> set_nsites src n) /\
    match fin with
    | Done => rest = []
    | Raised e =>
        exists src rest',
          rest = src :: rest' /\ ~ queryable self src /\
          filter_source self (default sc sites) src = Raise e
    end.
Proof.
  intros Hsc Hrt Hidx.
  assert (exists processed rest,
            sources = processed ++ rest /\ Forall (queryable self) processed /\
            match rest with
            | [] => True
            | src :: _ => ~ queryable self src
            end) as (processed & rest & -> & Hall & Hrest).
  { induction sources as [|src sources IH].
    - exists [], []. by repeat split.
    - destruct (queryable_dec self src) as [Hq|Hq].
      + destruct IH as (processed & rest & -> & Hall & Hrest).
        exists (src :: processed), rest. split; [done|]. split; [|done].
        by constructor.
      + exists [], (src :: sources). by repeat split. }
  destruct (index_path_all_queryable self sc idx Hsc Hrt Hidx processed
              sites Hall) as (out & Hout & Hpairs & Hskip).
  unfold SourceFilter_call in *. rewrite Hsc in *.
  set (s := default sc sites) in *.
  destruct rest as [|src rest].
  - exists out, Done, processed, []. rewrite app_nil_r. by repeat split.
  - destruct (filter_source_not_queryable self idx Hrt Hidx s src Hrest)
      as [e He].
    exists out, (Raised e), processed, (src :: rest).
    split.
    { rewrite filter_loop_app, Hout. simpl. rewrite He. simpl.
      by rewrite app_nil_r. }
    split; [done|]. split; [done|]. split; [done|]. split; [done|].
    by exists src, rest.
Qed.

Lemma C3_index_path_witness :
  exists out fin processed rest,
    SourceFilter_call sample_filter
      [far_source; near_source; box_source "wrap" (170, -10, -170, 10)] None
      = (out, fin) /\
    [far_source; near_source; box_source "wrap" (170, -10, -170, 10)]
      = processed ++ rest /\
    Forall (queryable sample_filter) processed /\
    Forall2 (yields_for sample_filter sample_index
               (default sample_sites None)) out
      (List.filter
         (fun src =>
            (0 <? length (affected_hits sample_filter sample_index src))%nat)
         processed) /\
    (forall src, src ∈ processed ->
     affected_hits sample_filter sample_index src = [] ->
     forall p n, p ∈ out -> p.1 <> set_nsites src n) /\
    match fin with
    | Done => rest = []
    | Raised e =>
        exists src rest',
          rest = src :: rest' /\ ~ queryable sample_filter src /\
          filter_source sample_filter (default sample_sites None) src
            = Raise e
    end.
Proof.
  apply (C3_index_path sample_filter sample_sites sample_index).
  - reflexivity.
  - reflexivity.
  - vm_compute. reflexivity.
Defined.

(** The end-to-end case of three sites at longitudes 0, 1 and 10: the far
    source is pruned, the near one is yielded with the two sites it
    covers. *)
Example sample_filter_end_to_end :
  SourceFilter_call sample_filter [far_source; near_source] None
  = ([(set_nsites near_source 2, Some (Filtered [0; 1]%nat (all_sites sample_sites)))],
     Done).
Proof. vm_compute. reflexivity. Qed.

(** The order in which the index enumerates its items does not matter. *)
Lemma sorted_hits_perm (idx idx' : Index) (b : box) :
  idx ≡ₚ idx' -> sorted (hits idx b) = sorted (hits idx' b).
Proof.
  intros Hperm. unfold sorted, hits.
  apply (Sorted_unique le).
  - apply Sorted_merge_sort, _.
  - apply Sorted_merge_sort, _.
  - rewrite !merge_sort_Permutation.
    apply Permutation_map. induction Hperm; simpl.
    + done.
    + destruct (boxes_intersect x.2 b); [by constructor|done].
    + destruct (boxes_intersect x.2 b), (boxes_intersect y.2 b);
        try done; by constructor.
    + by etrans.
Qed.

(** ** Boxes across the antimeridian *)

(** A box whose minimum longitude exceeds its maximum meets none of the
    points of an index. *)
Lemma hits_inverted (idx : Index) (b : box) :
  Forall (fun item => item.2.1.1.1 == item.2.1.2) idx ->
  Qltb b.1.2 b.1.1.1 = true -> hits idx b = [].
Proof.
  destruct b as [[[minx miny] maxx] maxy]. simpl. intros Hidx Hinv.
  apply Qltb_lt in Hinv. unfold hits.
  induction Hidx as [|[i [[[x0 y0] x1] y1]] idx Hitem Hidx IH]; [done|].
  simpl in *.
  assert (Qleb x0 maxx && Qleb minx x1 = false) as ->; [|done].
  destruct (Qleb x0 maxx) eqn:E1; [|done]. apply Qleb_le in E1.
  simpl. apply Qleb_gt. lra.
Qed.

(** Whatever the index holds and whatever the IDL flag is, a source whose
    enlarged box is (170, -10, -170, 10) yields no pair on the index path:
    both the remapped box (190, -10, 170, 10) and the unchanged one have
    their minimum longitude above the maximum, and the query fails. *)
Lemma antimeridian_box_fails self sites src maxdist :
  use_rtree self = true ->
  IntegrationDistance_getitem (integration_distance self)
    (tectonic_region_type src) = Ok maxdist ->
  get_bounding_box src maxdist = (170, -10, -170, 10) ->
  exists e, filter_source self sites src = Raise e.
Proof.
  intros Hrt Hmax Hbox. unfold filter_source, get_affected_box.
  rewrite Hrt, Hmax. simpl. rewrite Hbox.
  destruct (idl self) as [[|]|]; simpl;
    destruct (index self); simpl; eexists; reflexivity.
Qed.

(** C2: the filter over sites at longitudes -179.9 and 170 is built with
    the IDL correction, the site at -179.9 being indexed at 180.1.  For the
    source whose enlarged box is (170, -10, -170, 10) the affected box is
    (190, -10, 170, 10): the query fails and no pair is yielded, so the site
    is not retained, although the box shifted by 360 degrees,
    (170, -10, 190, 10), contains it. *)
Theorem C2_antimeridian_site_dropped :
  idl idl_filter = Some true /\
  index idl_filter
    = Some [(0%nat, (1801 # 10, 0, 1801 # 10, 0));
            (1%nat, (170, 0, 170, 0))] /\
  get_affected_box idl_filter antimeridian_source
    = Ok (Some (-170 + 360, -10, 170, 10)) /\
  (exists e,
     SourceFilter_call idl_filter [antimeridian_source] None
       = ([], Raised e) /\ etype e = RTreeError) /\
  hits (default [] (index idl_filter)) (-170 + 360, -10, 170, 10) = [] /\
  hits (default [] (index idl_filter)) (170, -10, -170 + 360, 10)
    = [0; 1]%nat.
Proof.
  split; [reflexivity|]. split; [reflexivity|]. split; [reflexivity|].
  split; [|split; reflexivity].
  eexists. split; reflexivity.
Qed.

(** ** The sites argument *)

Lemma filter_source_rtree_complete self s1 s2 src :
  use_rtree self = true -> complete s1 = complete s2 ->
  filter_source self s1 src = filter_source self s2 src.
Proof.
  intros Hrt Hc. unfold filter_source. rewrite Hrt, Hc. done.
Qed.

Lemma filter_loop_rtree_complete self s1 s2 sources :
  use_rtree self = true -> complete s1 = complete s2 ->
  filter_loop self s1 sources = filter_loop self s2 sources.
Proof.
  intros Hrt Hc. induction sources as [|src sources IH]; [done|]. simpl.
  rewrite (filter_source_rtree_complete self s1 s2) by done.
  by rewrite IH.
Qed.

(** Without index, every pair pairs a source with the caller's sites or
    with what the source's own filter made of them. *)
Lemma filter_loop_fallback_honours self s sources p :
  use_rtree self = false -> p ∈ (filter_loop self s sources).1 ->
  p.2 = Some s \/
  exists src maxdist subset,
    src ∈ sources /\
    filter_sites_by_distance_to_source src maxdist s = Ok (Some subset) /\
    p.2 = Some subset.
Proof.
  intros Hrt. induction sources as [|src sources IH]; simpl.
  { by intros ?%elem_of_nil. }
  assert (p ∈ (filter_loop self s sources).1 ->
          p.2 = Some s \/
          exists src0 maxdist subset,
            src0 ∈ src :: sources /\
            filter_sites_by_distance_to_source src0 maxdist s
              = Ok (Some subset) /\ p.2 = Some subset) as IH'.
  { intros Hp. destruct (IH Hp) as [?|(src0 & m & sub & ? & ? & ?)];
      [by left|right]. exists src0, m, sub. split; [by right|done]. }
  destruct (filter_source self s src) as [[q|]|e] eqn:Hsrc; simpl;
    [|done|by intros ?%elem_of_nil].
  destruct (filter_loop self s sources) as [out fin]. simpl in *.
  intros [->|Hp]%elem_of_cons; [|by apply IH'].
  unfold filter_source in Hsrc. rewrite Hrt in Hsrc.
  destruct (IntegrationDistance_len (integration_distance self) =? 0)%nat.
  { simplify_eq. by left. }
  destruct (IntegrationDistance_call _ _ _).1 as [maxdist|]; [|done].
  simpl in Hsrc.
  destruct (filter_sites_by_distance_to_source src maxdist s)
    as [[sub|]|err] eqn:Hf.
  - simpl in Hsrc. simplify_eq.
    right. exists src, maxdist, sub. split; [by left|done].
  - simpl in Hsrc. simplify_eq.
  - destruct (context_raises (A := option SiteCollection) (source_id src) err)
      as [e He].
    rewrite He in Hsrc. done.
Qed.

(** C10: on the index path the sites argument matters only through its
    complete collection; a caller that passes the first of three sites
    receives a subset that also holds the second one.  The argument is
    honoured when the filter has no site collection and on the path without
    index. *)
Theorem C10_sites_argument :
  (forall self sc sources s1 s2,
     sitecol self = Some sc -> use_rtree self = true ->
     complete s1 = complete s2 ->
     SourceFilter_call self sources (Some s1)
       = SourceFilter_call self sources (Some s2)) /\
  (exists narrowed src subset,
     narrowed = FilteredSiteCollection [0%nat] sample_sites /\
     sids narrowed ⊆ sids sample_sites /\
     sids narrowed <> sids sample_sites /\
     use_rtree sample_filter = true /\
     SourceFilter_call sample_filter [near_source] (Some narrowed)
       = ([(src, Some subset)], Done) /\
     1%nat ∈ sids subset /\ 1%nat ∉ sids narrowed) /\
  (forall self sources sites p,
     sitecol self = None ->
     p ∈ (SourceFilter_call self sources sites).1 -> p.2 = sites) /\
  (forall self sc sources sites p,
     sitecol self = Some sc -> use_rtree self = false ->
     p ∈ (SourceFilter_call self sources sites).1 ->
     p.2 = Some (default sc sites) \/
     exists src maxdist subset,
       src ∈ sources /\
       filter_sites_by_distance_to_source src maxdist (default sc sites)
         = Ok (Some subset) /\
       p.2 = Some subset).
Proof.
  split; [|split; [|split]].
  - intros self sc sources s1 s2 Hsc Hrt Hc. unfold SourceFilter_call.
    rewrite Hsc. simpl. by apply filter_loop_rtree_complete.
  - eexists _, _, _. split; [reflexivity|].
    split; [|split; [|split; [|split; [|split]]]].
    + vm_compute. intros x ->%list_elem_of_singleton. left.
    + vm_compute. discriminate.
    + reflexivity.
    + vm_compute. reflexivity.
    + simpl. right. left.
    + simpl. intros H%list_elem_of_singleton. discriminate.
  - intros self sources sites p Hsc. unfold SourceFilter_call. rewrite Hsc.
    simpl. intros Hp. apply list_elem_of_fmap in Hp as (src & -> & _). done.
  - intros self sc sources sites p Hsc Hrt. unfold SourceFilter_call.
    rewrite Hsc. by apply filter_loop_fallback_honours.
Qed.

Lemma C10_sites_argument_witness :
  SourceFilter_call sample_filter [far_source; near_source]
    (Some (FilteredSiteCollection [0%nat] sample_sites))
  = SourceFilter_call sample_filter [far_source; near_source]
      (Some sample_sites) /\
  (forall p,
     p ∈ (SourceFilter_call (source_site_noop_filter true fix_lons_idl)
            [near_source]
            (Some (FilteredSiteCollection [0%nat] sample_sites))).1 ->
     p.2 = Some (FilteredSiteCollection [0%nat] sample_sites)) /\
  (forall p,
     p ∈ (SourceFilter_call worker_filter [near_source]
            (Some (FilteredSiteCollection [0%nat] sample_sites))).1 ->
     p.2 = Some (default sample_sites
                   (Some (FilteredSiteCollection [0%nat] sample_sites))) \/
     exists src maxdist subset,
       src ∈ [near_source] /\
       filter_sites_by_distance_to_source src maxdist
         (default sample_sites
            (Some (FilteredSiteCollection [0%nat] sample_sites)))
         = Ok (Some subset) /\
       p.2 = Some subset).
Proof.
  destruct C10_sites_argument as (Hsame & _ & Hnoop & Hworker).
  split; [|split].
  - apply (Hsame sample_filter sample_sites); reflexivity.
  - intros p. apply Hnoop. reflexivity.
  - intros p. apply (Hworker worker_filter sample_sites); reflexivity.
Defined.

(** ** Pickling *)

Lemma call_nomag_threshold self trt :
  (IntegrationDistance_call self trt None).1 = threshold self trt None.
Proof.
  unfold IntegrationDistance_call, threshold.
  destruct (getdefault (dic self) trt) as [[x|l]|e]; simpl; try done.
  by destruct (last l).
Qed.

Lemma filter_source_fallback self sites src :
  use_rtree self = false ->
  filter_source self sites src
  = fallback_source (integration_distance self) sites src.
Proof.
  intros Hrt. unfold filter_source, fallback_source, IntegrationDistance_len.
  rewrite Hrt. destruct (size _ =? 0)%nat; [done|].
  rewrite call_nomag_threshold.
  destruct (threshold _ _ None) as [maxdist|e]; simpl; [|done].
  by destruct (filter_sites_by_distance_to_source src maxdist sites)
    as [[sub|]|err].
Qed.

Lemma filter_loop_fallback self sites sources :
  use_rtree self = false ->
  filter_loop self sites sources
  = fallback_loop (integration_distance self) sites sources.
Proof.
  intros Hrt. induction sources as [|src sources IH]; [done|]. simpl.
  rewrite filter_source_fallback by done.
  destruct (fallback_source _ sites src) as [[p|]|e]; [|done|done].
  rewrite IH. by destruct (fallback_loop _ sites sources).
Qed.

(** A filter that went through pickle is the filter the constructor builds
    from the same arguments with [use_rtree=False]. *)
Lemma pickle_init rtree fix_lons sc d use_rtree_arg :
  setstate (getstate (SourceFilter_init rtree fix_lons sc d use_rtree_arg))
  = SourceFilter_init rtree fix_lons sc d false.
Proof.
  unfold SourceFilter_init. simpl.
  destruct sc as [s|]; [|done].
  destruct (use_rtree_arg && rtree && distance_nonempty d && at_sea_level s);
    [|done].
  by destruct (fix_lons (lons s)).
Qed.

(** C7, as amended: pickling keeps the site collection and the distance
    table, turns [use_rtree] off and drops the index; calling the copy
    yields, with the same end, the pairs of the path without index run on
    the site collection and the table of the original.  The copy owes
    nothing to the index of the original: two filters with the same site
    collection and the same table have the same copy. *)
Theorem C7_pickle_roundtrip (self : SourceFilter) :
  let copy := setstate (getstate self) in
  sitecol copy = sitecol self /\
  integration_distance copy = integration_distance self /\
  use_rtree copy = false /\
  index copy = None /\
  idl copy = None /\
  (forall sources sites,
     SourceFilter_call copy sources sites
     = geometric_fallback (integration_distance self) (sitecol self)
         sources sites) /\
  (forall other,
     sitecol other = sitecol self ->
     integration_distance other = integration_distance self ->
     setstate (getstate other) = copy).
Proof.
  simpl. repeat (split; [reflexivity|]). split.
  - intros sources sites. unfold SourceFilter_call, geometric_fallback. simpl.
    destruct (sitecol self) as [sc|]; [|done].
    exact (filter_loop_fallback (setstate (getstate self)) _ _ eq_refl).
  - intros other Hsc Hd. unfold setstate, getstate. simpl.
    by rewrite Hsc, Hd.
Qed.

Lemma C7_pickle_roundtrip_witness :
  (forall sources sites,
     SourceFilter_call (setstate (getstate sample_filter)) sources sites
     = geometric_fallback (integration_distance sample_filter)
         (sitecol sample_filter) sources sites) /\
  setstate (getstate worker_filter) = setstate (getstate sample_filter).
Proof.
  destruct (C7_pickle_roundtrip sample_filter)
    as (_ & _ & _ & _ & _ & Hcall & Hsame).
  split; [exact Hcall|].
  apply Hsame; reflexivity.
Defined.

(** On the sample sites the index path and the copy agree: the far source
    is pruned and the near one keeps the first two sites. *)
Example pickle_sample :
  SourceFilter_call (setstate (getstate sample_filter))
    [far_source; near_source] None
  = ([(set_nsites near_source 2,
       Some (Filtered [0; 1]%nat (all_sites sample_sites)))], Done).
Proof. vm_compute. reflexivity. Qed.

(** C7, as stated, fails on the code: dropping the index does change which
    pairs are produced.  The index selects by bounding box, so for a source
    whose own filter is stricter than its box the original yields a pair
    with the two sites in the box, and its pickled copy yields nothing. *)
Lemma C7_index_dropping_changes_pairs :
  SourceFilter_call sample_filter [distant_source] None
    = ([(set_nsites distant_source 2,
         Some (Filtered [0; 1]%nat (all_sites sample_sites)))], Done) /\
  SourceFilter_call (setstate (getstate sample_filter)) [distant_source] None
    = ([], Done) /\
  SourceFilter_call (setstate (getstate sample_filter)) [distant_source] None
    <> SourceFilter_call sample_filter [distant_source] None.
Proof.
  split; [vm_compute; reflexivity|]. split; [vm_compute; reflexivity|].
  vm_compute. discriminate.
Qed.

(** ** Failures of the source's own filter *)

Lemma context_ok {A} id (a : A) : context id (Ok a) = Ok a.
Proof. reflexivity. Qed.

Lemma context_raise {A} id (err : exc) :
  accepts_message (etype err) = true ->
  context (A := A) id (Raise err)
  = Raise (Exc (etype err)
             ("An error occurred with source id=" ++ id ++ ". Error: "
              ++ emsg err) (etb err)).
Proof. intros H. unfold context, raise_. by rewrite H. Qed.

(** An error whose class cannot be built from one string comes out as the
    TypeError of the failed construction: the kind, the message and the
    traceback of the original are lost, and the source is not named. *)
Lemma context_raise_unbuildable {A} id (err : exc) :
  accepts_message (etype err) = false ->
  context (A := A) id (Raise err)
  = Raise (Exc TypeError "function takes exactly 5 arguments (1 given)" []).
Proof. intros H. unfold context, raise_. by rewrite H. Qed.

(** On the path without index, an error of the source's own filter whose
    class can be built from one string ends the generator with an error of
    the same kind and the same traceback whose message is the original one
    behind the sentence naming the source; the pairs yielded before stay as
    they are and nothing is yielded for the source or after it. *)
Lemma context_enriches (self : SourceFilter) (sites : SiteCollection)
    (src : Source) (maxdist : Q) (err : exc) :
  use_rtree self = false ->
  IntegrationDistance_len (integration_distance self) <> 0%nat ->
  (IntegrationDistance_call (integration_distance self)
     (tectonic_region_type src) None).1 = Ok maxdist ->
  filter_sites_by_distance_to_source src maxdist sites = Raise err ->
  accepts_message (etype err) = true ->
  exists err',
    etype err' = etype err /\
    etb err' = etb err /\
    emsg err' = ("An error occurred with source id=" ++ source_id src
                 ++ ". Error: " ++ emsg err)%string /\
    context (source_id src)
      (filter_sites_by_distance_to_source src maxdist sites) = Raise err' /\
    filter_source self sites src = Raise err' /\
    forall before after out,
      filter_loop self sites before = (out, Done) ->
      filter_loop self sites (before ++ src :: after) = (out, Raised err').
Proof.
  intros Hrt Hlen Hmax Hfail Hacc.
  eexists (Exc _ _ _). split; [reflexivity|]. split; [reflexivity|].
  split; [reflexivity|].
  assert (filter_source self sites src
          = Raise (Exc (etype err)
                     ("An error occurred with source id=" ++ source_id src
                      ++ ". Error: " ++ emsg err) (etb err))) as Hsrc.
  { unfold filter_source. rewrite Hrt.
    apply Nat.eqb_neq in Hlen. rewrite Hlen, Hmax. simpl.
    by rewrite Hfail, context_raise. }
  split; [by rewrite Hfail, context_raise|]. split; [done|].
  intros before after out Hbefore.
  rewrite filter_loop_app, Hbefore. simpl. rewrite Hsrc. simpl.
  by rewrite app_nil_r.
Qed.

Example context_enriches_sample :
  filter_loop worker_filter sample_sites
    ([near_source] ++ failing_source :: [far_source])
  = ([(set_nsites near_source 2,
       Some (Filtered [0; 1]%nat (all_sites sample_sites)))],
     Raised (Exc ValueError
               "An error occurred with source id=src_42. Error: degenerate polygon"
               ["polygon.py:17"%string])).
Proof. vm_compute. reflexivity. Qed.

(** C8: the wrapper does not keep the kind of every error.  The source
    [undecodable_source] fails with a UnicodeDecodeError in its own filter;
    the wrapper hands the class and one string to [raise_], the class
    cannot be built from one string, and the generator ends with a
    TypeError instead, whose message does not name the source and whose
    traceback is not the original one.  The pair yielded before is
    kept. *)
Theorem C8_kind_not_preserved :
  filter_sites_by_distance_to_source undecodable_source 200 sample_sites
    = Raise (Exc UnicodeDecodeError
               "'utf-8' codec can't decode byte 0xff in position 0"
               ["geo.py:12"%string]) /\
  exists e,
    filter_loop worker_filter sample_sites
      ([near_source] ++ undecodable_source :: [far_source])
    = ([(set_nsites near_source 2,
         Some (Filtered [0; 1]%nat (all_sites sample_sites)))],
       Raised e) /\
    etype e = TypeError /\
    etype e <> UnicodeDecodeError /\
    emsg e = "function takes exactly 5 arguments (1 given)"%string /\
    etb e <> ["geo.py:12"%string].
Proof.
  split; [reflexivity|].
  eexists. split; [vm_compute; reflexivity|].
  repeat split; discriminate.
Qed.

(** The lookup of the maximum distance happens before the wrapper: its
    KeyError reaches the caller as it is. *)
Remark lookup_error_not_enriched (self : SourceFilter)
    (sites : SiteCollection) (src : Source) (e : exc) :
  use_rtree self = false ->
  IntegrationDistance_len (integration_distance self) <> 0%nat ->
  (IntegrationDistance_call (integration_distance self)
     (tectonic_region_type src) None).1 = Raise e ->
  filter_source self sites src = Raise e.
Proof.
  intros Hrt Hlen Hmax. unfold filter_source. rewrite Hrt.
  apply Nat.eqb_neq in Hlen. by rewrite Hlen, Hmax.
Qed.

(** * Further properties of the module *)

(** ** get_distances *)

Lemma eqb_chain_false (param : string) :
  param ∉ supported_metrics ->
  String.eqb param "rrup" = false /\ String.eqb param "rx" = false /\
  String.eqb param "ry0" = false /\ String.eqb param "rjb" = false /\
  String.eqb param "rhypo" = false /\ String.eqb param "repi" = false /\
  String.eqb param "rcdpp" = false /\ String.eqb param "azimuth" = false.
Proof.
  intros Hnot. unfold supported_metrics in Hnot.
  repeat split; apply String.eqb_neq; intros ->; apply Hnot;
    repeat (first [by left | right]).
Qed.

(** X1: get_distances returns for the eight distance kinds it names, with
    one value per point of the mesh, and raises ValueError for every other
    name. *)
Theorem X1_get_distances_supported (rupture : Rupture) (m : list Site)
    (param : string) :
  (param ∈ supported_metrics ->
   exists ds, get_distances rupture m param = Ok ds /\
              length ds = length m) /\
  (param ∉ supported_metrics ->
   exists e, get_distances rupture m param = Raise e /\
             etype e = ValueError).
Proof.
  split.
  - unfold supported_metrics. intros Hin.
    repeat (apply elem_of_cons in Hin as [->|Hin];
            [eexists; split; [reflexivity|apply length_map]|]).
    by apply elem_of_nil in Hin.
  - intros Hnot.
    destruct (eqb_chain_false param Hnot)
      as (H1 & H2 & H3 & H4 & H5 & H6 & H7 & H8).
    unfold get_distances. rewrite H1, H2, H3, H4, H5, H6, H7, H8.
    eexists. split; reflexivity.
Qed.

Lemma X1_get_distances_supported_witness :
  (exists ds, get_distances (sample_rupture "Active") (mesh sample_sites)
                "repi" = Ok ds /\
              length ds = length (mesh sample_sites)) /\
  (exists e, get_distances (sample_rupture "Active") (mesh sample_sites)
               "rvolc" = Raise e /\ etype e = ValueError).
Proof.
  split.
  - apply (X1_get_distances_supported (sample_rupture "Active")
             (mesh sample_sites) "repi").
    unfold supported_metrics. repeat (first [by left | right]).
  - apply (X1_get_distances_supported (sample_rupture "Active")
             (mesh sample_sites) "rvolc").
    unfold supported_metrics. intros Hin.
    repeat (apply elem_of_cons in Hin as [Hin|Hin]; [discriminate|]).
    by apply elem_of_nil in Hin.
Defined.

(** X2: with an unsupported distance kind get_closest fails with the
    ValueError of get_distances before it looks at the table, empty or
    not, and leaves the object as it was. *)
Theorem X2_get_closest_unknown_metric (self : IntegrationDistance)
    (sites : SiteCollection) (rupture : Rupture) (distance_type : string) :
  distance_type ∉ supported_metrics ->
  exists e,
    get_closest self sites rupture distance_type = (Raise e, self) /\
    etype e = ValueError.
Proof.
  intros Hnot.
  destruct (eqb_chain_false distance_type Hnot)
    as (H1 & H2 & H3 & H4 & H5 & H6 & H7 & H8).
  unfold get_closest, get_distances.
  rewrite H1, H2, H3, H4, H5, H6, H7, H8.
  eexists. split; reflexivity.
Qed.

Lemma X2_get_closest_unknown_metric_witness :
  exists e,
    get_closest (IntegrationDistance_init ∅) sample_sites
      (sample_rupture "Active") "rvolc"
      = (Raise e, IntegrationDistance_init ∅) /\
    etype e = ValueError.
Proof.
  apply (X2_get_closest_unknown_metric (IntegrationDistance_init ∅)
           sample_sites (sample_rupture "Active") "rvolc").
  unfold supported_metrics. intros Hin.
  repeat (apply elem_of_cons in Hin as [Hin|Hin]; [discriminate|]).
  by apply elem_of_nil in Hin.
Defined.

(** ** filter_sites_by_distance_to_rupture *)

Lemma select_sublist {A} (mask : list bool) (a : list A) :
  select mask a `sublist_of` a.
Proof.
  revert a. induction mask as [|b mask IH]; intros [|x a]; simpl;
    try apply sublist_nil_l.
  destruct b; [by apply sublist_skip|by apply sublist_cons].
Qed.

Lemma select_sublist_mono {A B} (f g : B -> bool) (ds : list B)
    (a : list A) :
  (forall d, f d = true -> g d = true) ->
  select (map f ds) a `sublist_of` select (map g ds) a.
Proof.
  intros Hfg. revert a.
  induction ds as [|d ds IH]; intros [|x a]; simpl; try apply sublist_nil_l.
  destruct (f d) eqn:Hf.
  - rewrite (Hfg d Hf). by apply sublist_skip.
  - destruct (g d); [by apply sublist_cons|done].
Qed.

(** X3: filter_sites_by_distance_to_rupture keeps the identifiers of the
    sites whose Joyner-Boore distance is at most the threshold, in their
    order and with the same complete collection; a larger threshold keeps
    at least the same sites. *)
Theorem X3_filter_by_rupture_distance (rupture : Rupture)
    (sites : SiteCollection) (d1 d2 : Q) :
  let jb := map (get_joyner_boore_distance (surface rupture)) (mesh sites) in
  sids (filter_sites_by_distance_to_rupture rupture d1 sites)
    = map fst (List.filter (fun sd => Qleb sd.2 d1) (zip (sids sites) jb)) /\
  complete (filter_sites_by_distance_to_rupture rupture d1 sites)
    = complete sites /\
  sids (filter_sites_by_distance_to_rupture rupture d1 sites)
    `sublist_of` sids sites /\
  (d1 <= d2 ->
   sids (filter_sites_by_distance_to_rupture rupture d1 sites)
     `sublist_of` sids (filter_sites_by_distance_to_rupture rupture d2 sites)).
Proof.
  unfold filter_sites_by_distance_to_rupture. simpl.
  split; [|split; [|split]].
  - exact (select_zip (fun d => Qleb d d1) (sids sites) _).
  - done.
  - apply select_sublist.
  - intros Hle. apply select_sublist_mono. intros d Hd.
    apply Qleb_le in Hd. apply Qleb_le. lra.
Qed.

Lemma X3_filter_by_rupture_distance_witness :
  sids (filter_sites_by_distance_to_rupture (sample_rupture "Active") 50
          sample_sites)
    `sublist_of`
  sids (filter_sites_by_distance_to_rupture (sample_rupture "Active") 200
          sample_sites).
Proof.
  apply (X3_filter_by_rupture_distance (sample_rupture "Active")
           sample_sites 50 200).
  discriminate.
Defined.

(** ** get_closest and the rupture filter *)

Lemma getdefault_nonempty {V} (d : gmap string V) k v :
  getdefault d k = Ok v -> size d <> 0%nat.
Proof.
  unfold getdefault. intros Hv Hsize.
  apply map_size_empty_iff in Hsize. subst d.
  rewrite !lookup_empty in Hv. done.
Qed.

(** X4: for a region type whose maximum distance is a scalar, get_closest
    with the Joyner-Boore distance returns what
    filter_sites_by_distance_to_rupture returns for that scalar, together
    with the distances of the sites kept, as soon as one site is in range;
    the object is left as it was. *)
Theorem X4_get_closest_agrees_with_rupture_filter
    (self : IntegrationDistance) (sites : SiteCollection)
    (rupture : Rupture) (x : Q) :
  getdefault (dic self) (rup_tectonic_region_type rupture) = Ok (Scalar x) ->
  Exists (fun d => d <= x)
    (map (get_joyner_boore_distance (surface rupture)) (mesh sites)) ->
  get_closest self sites rupture "rjb"
  = (Ok (filter_sites_by_distance_to_rupture rupture x sites,
         List.filter (fun d => Qleb d x)
           (map (get_joyner_boore_distance (surface rupture)) (mesh sites))),
     self).
Proof.
  intros Hv Hex. unfold get_closest, filter_sites_by_distance_to_rupture.
  simpl.
  pose proof (getdefault_nonempty _ _ _ Hv) as Hsize.
  apply Nat.eqb_neq in Hsize. rewrite Hsize.
  unfold IntegrationDistance_call. rewrite Hv.
  apply existsb_mask in Hex. rewrite Hex.
  by rewrite select_filter.
Qed.

Lemma X4_get_closest_agrees_with_rupture_filter_witness :
  get_closest scalar_maxdist sample_sites (sample_rupture "Active") "rjb"
  = (Ok (filter_sites_by_distance_to_rupture (sample_rupture "Active") 200
           sample_sites,
         List.filter (fun d => Qleb d 200)
           (map (get_joyner_boore_distance
                   (surface (sample_rupture "Active")))
              (mesh sample_sites))),
     scalar_maxdist).
Proof.
  apply (X4_get_closest_agrees_with_rupture_filter scalar_maxdist
           sample_sites (sample_rupture "Active") 200).
  - vm_compute. reflexivity.
  - apply Exists_cons_hd. vm_compute. discriminate.
Defined.

(** ** Lookups after a history of lookups *)

Lemma run_lookups_snoc self history q :
  run_lookups self (history ++ [q])
  = (IntegrationDistance_call (run_lookups self history) q.1 q.2).2.
Proof. unfold run_lookups. by rewrite foldl_app. Qed.

Lemma run_lookups_ok self history :
  table_ok self ->
  table_ok (run_lookups self history) /\
  dic (run_lookups self history) = dic self /\
  magdist (run_lookups self history) = magdist self.
Proof.
  intros Hok. induction history as [|q history IH] using rev_ind.
  - done.
  - destruct IH as (IH & Hd & Hm). rewrite run_lookups_snoc.
    destruct (call_dic (run_lookups self history) q.1 q.2) as [Hd' Hm'].
    split; [by apply call_table_ok|]. split; congruence.
Qed.

Lemma lookup_after_history d history trt mag :
  (IntegrationDistance_call
     (run_lookups (IntegrationDistance_init d) history) trt mag).1
  = threshold (IntegrationDistance_init d) trt mag.
Proof.
  destruct (run_lookups_ok (IntegrationDistance_init d) history
              (init_table_ok d)) as (Hok & Hd & Hm).
  rewrite call_threshold by done. unfold threshold. by rewrite Hd, Hm.
Qed.

(** ** A list entry without pairs *)

(** X8: the constructor accepts a list entry without pairs, and every
    lookup that resolves to it fails afterwards, whatever lookups came
    before: with IndexError without magnitude, with TypeError with one. *)
Theorem X8_empty_list_entry (d : gmap string dist_value)
    (history : list (string * option Q)) (trt : string) :
  getdefault d trt = Ok (MagDist []) ->
  let self := run_lookups (IntegrationDistance_init d) history in
  (exists e, (IntegrationDistance_call self trt None).1 = Raise e /\
             etype e = IndexError) /\
  (forall m, exists e,
     (IntegrationDistance_call self trt (Some m)).1 = Raise e /\
     etype e = TypeError).
Proof.
  intros Hv. simpl.
  assert (getdefault (dic (IntegrationDistance_init d)) trt
          = Ok (MagDist []) /\
          getdefault (magdist (IntegrationDistance_init d)) trt = Ok [])
    as [Hdic Hmag].
  { unfold getdefault in *. simpl. rewrite !lookup_fmap, !lookup_omap.
    destruct (d !! trt) as [v|]; simpl in *.
    - by simplify_eq.
    - destruct (d !! "default"%string) as [v|]; simpl in *; by simplify_eq. }
  split.
  - rewrite lookup_after_history. unfold threshold. rewrite Hdic. simpl.
    eexists. split; reflexivity.
  - intros m. rewrite lookup_after_history. unfold threshold.
    rewrite Hdic, Hmag. simpl. eexists. split; reflexivity.
Qed.

Lemma X8_empty_list_entry_witness :
  (exists e,
     (IntegrationDistance_call
        (run_lookups (IntegrationDistance_init empty_list_dict)
           [("Active"%string, None)]) "Volcanic" None).1 = Raise e /\
     etype e = IndexError) /\
  (forall m, exists e,
     (IntegrationDistance_call
        (run_lookups (IntegrationDistance_init empty_list_dict)
           [("Active"%string, None)]) "Volcanic" (Some m)).1 = Raise e /\
     etype e = TypeError).
Proof.
  apply (X8_empty_list_entry empty_list_dict [("Active"%string, None)]
           "Volcanic").
  vm_compute. reflexivity.
Defined.

(** ** What get_closest returns *)

Lemma get_distances_length rupture m param ds :
  get_distances rupture m param = Ok ds -> length ds = length m.
Proof.
  unfold get_distances.
  repeat case_match; intros ?; simplify_eq; apply length_map.
Qed.

Lemma select_length {A B} (mask : list bool) (a : list A) (b : list B) :
  length a = length b -> length (select mask a) = length (select mask b).
Proof.
  revert a b. induction mask as [|c mask IH]; intros [|x a] [|y b] Hlen;
    simpl in *; try done.
  destruct c; simpl; auto.
Qed.

(** X9: what get_closest returns is aligned and in range: there are as
    many sites as distances, the dictionary of the table is untouched and
    its invariant kept, and with a non-empty table at least one site is
    returned and every distance returned is within the threshold of the
    rupture's region type and magnitude. *)
Theorem X9_get_closest_result (self self' : IntegrationDistance)
    (sites close : SiteCollection) (rupture : Rupture)
    (distance_type : string) (ds : list Q) :
  length (mesh sites) = length (sids sites) ->
  get_closest self sites rupture distance_type = (Ok (close, ds), self') ->
  length (sids close) = length ds /\
  dic self' = dic self /\
  (table_ok self -> table_ok self') /\
  (size (dic self) <> 0%nat ->
   ds <> [] /\
   exists t,
     (IntegrationDistance_call self (rup_tectonic_region_type rupture)
        (Some (mag rupture))).1 = Ok t /\
     Forall (fun d => d <= t) ds).
Proof.
  intros Hwf. unfold get_closest.
  destruct (get_distances rupture (mesh sites) distance_type)
    as [distances|e] eqn:Hd; [|done].
  apply get_distances_length in Hd.
  destruct (size (dic self) =? 0)%nat eqn:Hsize.
  - intros ?; simplify_eq. apply Nat.eqb_eq in Hsize.
    split; [congruence|]. split; [done|]. split; [done|]. done.
  - pose proof (call_dic self (rup_tectonic_region_type rupture)
                  (Some (mag rupture))) as [Hdic _].
    pose proof (call_table_ok self (rup_tectonic_region_type rupture)
                  (Some (mag rupture))) as Hok.
    destruct (IntegrationDistance_call self _ _) as [[t|e] s1]; [|done].
    simpl in *.
    destruct (existsb id (map (fun d => Qleb d t) distances)) eqn:Hex;
      [|done].
    intros ?; simplify_eq. split; [|split; [done|split; [done|]]].
    + simpl. apply select_length. congruence.
    + intros _. rewrite select_filter. split.
      * apply existsb_mask in Hex.
        apply Exists_exists in Hex as (d & Hin & Hle).
        intros Hnil.
        assert (d ∈ List.filter (fun d => Qleb d t) distances) as Hd'.
        { apply list_elem_of_In, filter_In. split.
          - by apply list_elem_of_In.
          - by apply Qleb_le. }
        rewrite Hnil in Hd'. by apply elem_of_nil in Hd'.
      * exists t. split; [done|].
        apply Forall_forall. intros d Hin.
        apply list_elem_of_In, filter_In in Hin as [_ Hle].
        by apply Qleb_le.
Qed.

Lemma X9_get_closest_result_witness :
  length (sids (FilteredSiteCollection [0; 1]%nat (complete sample_sites)))
    = length (List.filter (fun d => Qleb d 200) [111 * 0; 111 * 1; 111 * 10]).
Proof.
  eapply (X9_get_closest_result scalar_maxdist scalar_maxdist sample_sites
            _ (sample_rupture "Active") "rrup").
  - reflexivity.
  - vm_compute. reflexivity.
Defined.

(** ** The constructor of SourceFilter, continued *)

Lemma index_lookup (ids : list nat) (xs ys : list Q) i (item : nat * box) :
  zip_with (fun sid p => (sid, (p.1, p.2, p.1, p.2))) ids (zip xs ys) !! i
    = Some item <->
  exists sid x y,
    ids !! i = Some sid /\ xs !! i = Some x /\ ys !! i = Some y /\
    item = (sid, (x, y, x, y)).
Proof.
  revert xs ys i.
  induction ids as [|sid ids IH]; intros [|x xs] [|y ys] i; simpl;
    try (split; [done|]; intros (? & ? & ? & ? & ? & ? & ?); done).
  destruct i as [|i]; simpl.
  - split.
    + intros ?; simplify_eq. by exists sid, x, y.
    + intros (? & ? & ? & ? & ? & ? & ->). by simplify_eq.
  - apply IH.
Qed.

(** X10: the constructor stores the site collection and the table as they
    are; it turns the index on exactly when the caller asks for it, rtree
    is importable, the table is not empty and the site collection exists
    and is at sea level.  Without the index neither [index] nor [idl]
    exists; with it [idl] is the flag of the longitude fix and the item of
    the index at each position is the identifier of the site at that
    position with the point box made of its fixed longitude and its
    latitude. *)
Theorem X10_constructor (rtree : bool)
    (fix_lons : list Q -> list Q * bool) (sc : option SiteCollection)
    (d : gmap string dist_value + IntegrationDistance) (use_rtree_arg : bool) :
  let f := SourceFilter_init rtree fix_lons sc d use_rtree_arg in
  sitecol f = sc /\
  integration_distance f = wrap_distance d /\
  (use_rtree f = true <->
   use_rtree_arg = true /\ rtree = true /\ distance_nonempty d = true /\
   exists s, sc = Some s /\ at_sea_level s = true) /\
  (use_rtree f = false -> index f = None /\ idl f = None) /\
  (use_rtree f = true ->
   exists s idx,
     sc = Some s /\ index f = Some idx /\
     idl f = Some (fix_lons (lons s)).2 /\
     forall i item,
       idx !! i = Some item <->
       exists sid x y,
         sids s !! i = Some sid /\
         (fix_lons (lons s)).1 !! i = Some x /\
         lats s !! i = Some y /\
         item = (sid, (x, y, x, y))).
Proof.
  simpl. unfold SourceFilter_init.
  destruct sc as [s|]; simpl.
  - destruct (use_rtree_arg && rtree && distance_nonempty d && at_sea_level s)
      eqn:E.
    + destruct (fix_lons (lons s)) as [fixed flag] eqn:Hfix. simpl.
      apply andb_true_iff in E as [E Hsea].
      apply andb_true_iff in E as [E Hd].
      apply andb_true_iff in E as [Hu Hr].
      split; [done|]. split; [done|]. split.
      { split; [|done]. intros _. repeat split; try done. by exists s. }
      split; [done|]. intros _. eexists s, _.
      split; [done|]. split; [reflexivity|]. rewrite Hfix.
      split; [done|]. simpl. intros i item. apply index_lookup.
    + simpl. split; [done|]. split; [done|]. split.
      { split; [done|]. intros (-> & -> & Hd & s' & ? & Hsea).
        simplify_eq. rewrite Hd, Hsea in E. done. }
      split; done.
  - split; [done|]. split; [done|]. split.
    { split; [done|]. by intros (_ & _ & _ & s' & ? & _). }
    split; done.
Qed.

Lemma X10_constructor_witness :
  use_rtree sample_filter = true /\
  (use_rtree worker_filter = false ->
   index worker_filter = None /\ idl worker_filter = None).
Proof.
  destruct (X10_constructor true fix_lons_idl (Some sample_sites)
              (inl scalar_dict) true) as (_ & _ & Hiff & _).
  destruct (X10_constructor false fix_lons_idl (Some sample_sites)
              (inl scalar_dict) true) as (_ & _ & _ & Hoff & _).
  split; [|exact Hoff].
  apply Hiff. repeat split; try reflexivity.
  exists sample_sites. split; reflexivity.
Defined.

(** X11: a filter that went through pickle is the filter the constructor
    builds from the same arguments without the index, be it because the
    caller refuses it or because rtree cannot be imported; both are called
    with the same result. *)
Theorem X11_pickle_constructor (rtree : bool)
    (fix_lons : list Q -> list Q * bool) (sc : option SiteCollection)
    (d : gmap string dist_value + IntegrationDistance) (use_rtree_arg : bool) :
  let copy :=
    setstate (getstate (SourceFilter_init rtree fix_lons sc d use_rtree_arg))
  in
  copy = SourceFilter_init rtree fix_lons sc d false /\
  copy = SourceFilter_init false fix_lons sc d use_rtree_arg /\
  setstate (getstate copy) = copy /\
  forall sources sites,
    SourceFilter_call copy sources sites
    = SourceFilter_call (SourceFilter_init false fix_lons sc d use_rtree_arg)
        sources sites.
Proof.
  simpl. rewrite pickle_init.
  assert (SourceFilter_init rtree fix_lons sc d false
          = SourceFilter_init false fix_lons sc d use_rtree_arg) as Heq.
  { unfold SourceFilter_init. rewrite andb_false_r. simpl.
    by destruct sc. }
  split; [done|]. split; [done|]. split; [|by rewrite Heq].
  unfold SourceFilter_init. simpl. by destruct sc.
Qed.

(** ** get_close_sites *)

(** X12: on the index path get_close_sites returns, for a source whose box
    can be queried, the subset made of the identifiers found in ascending
    order, or None when the box meets no site; for a source whose box
    cannot be queried it raises. *)
Theorem X12_get_close_sites (self : SourceFilter) (sc : SiteCollection)
    (idx : Index) (src : Source) :
  sitecol self = Some sc -> use_rtree self = true -> index self = Some idx ->
  (queryable self src ->
   get_close_sites self src =
   if (0 <? length (affected_hits self idx src))%nat then
     Ok (Some (FilteredSiteCollection (sorted (affected_hits self idx src))
                 (complete sc)))
   else Ok None) /\
  (~ queryable self src -> exists e, get_close_sites self src = Raise e).
Proof.
  intros Hsc Hrt Hidx. unfold get_close_sites, SourceFilter_call.
  rewrite Hsc. simpl. split.
  - intros (b & Hbox & Hok).
    rewrite (filter_source_rtree self idx Hrt Hidx sc src b Hbox Hok).
    unfold affected_hits. rewrite Hbox.
    by destruct (0 <? length (hits idx b))%nat.
  - intros Hnot.
    destruct (filter_source_not_queryable self idx Hrt Hidx sc src Hnot)
      as [e ->].
    by exists e.
Qed.

Lemma X12_get_close_sites_witness :
  get_close_sites sample_filter near_source
    = Ok (Some (FilteredSiteCollection [0; 1]%nat (complete sample_sites))) /\
  get_close_sites sample_filter far_source = Ok None /\
  exists e, get_close_sites sample_filter antimeridian_source = Raise e.
Proof.
  split; [|split].
  - destruct (X12_get_close_sites sample_filter sample_sites sample_index
                near_source eq_refl eq_refl eq_refl) as [H _].
    rewrite H; [reflexivity|].
    exists (-1, -1, 2, 1). split; reflexivity.
  - destruct (X12_get_close_sites sample_filter sample_sites sample_index
                far_source eq_refl eq_refl eq_refl) as [H _].
    rewrite H; [reflexivity|].
    exists (50, -1, 60, 1). split; reflexivity.
  - destruct (X12_get_close_sites sample_filter sample_sites sample_index
                antimeridian_source eq_refl eq_refl eq_refl) as [_ H].
    apply H. intros (b & Hbox & Hok).
    vm_compute in Hbox. injection Hbox as <-.
    vm_compute in Hok. discriminate.
Defined.

(** ** Filters that do not filter *)

Lemma filter_loop_empty_table self sites sources :
  use_rtree self = false ->
  IntegrationDistance_len (integration_distance self) = 0%nat ->
  filter_loop self sites sources
  = (map (fun src => (src, Some sites)) sources, Done).
Proof.
  intros Hrt Hlen. induction sources as [|src sources IH]; [done|].
  simpl. unfold filter_source at 1. rewrite Hrt, Hlen. simpl.
  by rewrite IH.
Qed.

Lemma wrap_distance_len d :
  distance_nonempty d = false ->
  IntegrationDistance_len (wrap_distance d) = 0%nat.
Proof.
  unfold distance_nonempty, IntegrationDistance_len.
  destruct d as [dict|obj]; simpl; rewrite negb_false_iff, Nat.eqb_eq.
  - by rewrite map_size_fmap.
  - done.
Qed.

(** X13: a filter constructed with an empty distance table never filters,
    whatever the other arguments: every source is yielded once, in order
    and unchanged, with the sites of the caller or, failing them, the site
    collection of the filter, and the generator ends normally. *)
Theorem X13_empty_table_passes (rtree : bool)
    (fix_lons : list Q -> list Q * bool) (sc : option SiteCollection)
    (d : gmap string dist_value + IntegrationDistance) (use_rtree_arg : bool)
    (sources : list Source) (sites : option SiteCollection) :
  distance_nonempty d = false ->
  SourceFilter_call (SourceFilter_init rtree fix_lons sc d use_rtree_arg)
    sources sites
  = (map (fun src => (src, match sites with
                           | Some s => Some s
                           | None => sc
                           end)) sources, Done).
Proof.
  intros Hd. unfold SourceFilter_call, SourceFilter_init.
  rewrite Hd, andb_false_r. simpl.
  destruct sc as [s|]; simpl.
  - rewrite filter_loop_empty_table;
      [|done|by apply wrap_distance_len].
    by destruct sites.
  - by destruct sites.
Qed.

Lemma X13_empty_table_passes_witness :
  SourceFilter_call
    (SourceFilter_init true fix_lons_idl (Some sample_sites) (inl ∅) true)
    [far_source; failing_source] None
  = ([(far_source, Some sample_sites); (failing_source, Some sample_sites)],
     Done).
Proof.
  apply (X13_empty_table_passes true fix_lons_idl (Some sample_sites)
           (inl ∅) true [far_source; failing_source] None).
  reflexivity.
Defined.

(** ** The path without index *)

(** X14: on the path without index, when for every source the lookup of
    the maximum distance and the source's own filter return, the generator
    ends normally and its pairs are, in the order of the input, those of
    the sources whose filter returned a subset: the subset as it was
    returned, and the source with [nsites] set to its length. *)
Theorem X14_fallback_path (self : SourceFilter) (sc : SiteCollection)
    (sources : list Source) (sites : option SiteCollection) :
  sitecol self = Some sc -> use_rtree self = false ->
  IntegrationDistance_len (integration_distance self) <> 0%nat ->
  Forall (fun src => exists maxdist r,
            (IntegrationDistance_call (integration_distance self)
               (tectonic_region_type src) None).1 = Ok maxdist /\
            filter_sites_by_distance_to_source src maxdist (default sc sites)
              = Ok r) sources ->
  exists out,
    SourceFilter_call self sources sites = (out, Done) /\
    Forall2 (fun p src => exists maxdist subset,
               (IntegrationDistance_call (integration_distance self)
                  (tectonic_region_type src) None).1 = Ok maxdist /\
               filter_sites_by_distance_to_source src maxdist
                 (default sc sites) = Ok (Some subset) /\
               p = (set_nsites src (len subset), Some subset))
      out (List.filter (fallback_keeps self (default sc sites)) sources).
Proof.
  intros Hsc Hrt Hlen Hall. unfold SourceFilter_call. rewrite Hsc.
  set (s := default sc sites) in *. apply Nat.eqb_neq in Hlen.
  induction Hall as [|src sources (maxdist & r & Hmax & Hr) Hall IH]; simpl.
  - exists []. split; [done|constructor].
  - destruct IH as (out & Hout & Hpairs).
    unfold filter_source at 1, fallback_keeps at 1.
    rewrite Hrt, Hlen, Hmax. simpl. rewrite Hr. simpl.
    destruct r as [subset|]; simpl.
    + rewrite Hout. eexists. split; [done|].
      constructor; [|done]. by exists maxdist, subset.
    + by exists out.
Qed.

Lemma X14_fallback_path_witness :
  exists out,
    SourceFilter_call worker_filter [far_source; near_source] None
      = (out, Done) /\
    Forall2 (fun p src => exists maxdist subset,
               (IntegrationDistance_call (integration_distance worker_filter)
                  (tectonic_region_type src) None).1 = Ok maxdist /\
               filter_sites_by_distance_to_source src maxdist
                 (default sample_sites None) = Ok (Some subset) /\
               p = (set_nsites src (len subset), Some subset))
      out (List.filter (fallback_keeps worker_filter
                          (default sample_sites None))
             [far_source; near_source]).
Proof.
  apply (X14_fallback_path worker_filter sample_sites
           [far_source; near_source] None).
  - reflexivity.
  - reflexivity.
  - vm_compute. discriminate.
  - repeat constructor.
    + exists 200, None. split; vm_compute; reflexivity.
    + eexists 200, _. split; vm_compute; reflexivity.
Defined.

(** ** What the generator never does *)

Lemma filter_source_id self sites src p :
  filter_source self sites src = Ok (Some p) ->
  exists n, p.1 = src \/ p.1 = set_nsites src n.
Proof.
  unfold filter_source.
  destruct (use_rtree self).
  - destruct (get_affected_box self src) as [b|e]; simpl; [|done].
    destruct (index self) as [idx|]; simpl; [|done].
    destruct (intersection idx b) as [found|e]; simpl; [|done].
    destruct (0 <? length (sorted found))%nat; intros ?; simplify_eq.
    eexists. by right.
  - destruct (_ =? 0)%nat.
    { intros ?; simplify_eq. exists 0%nat. by left. }
    destruct (IntegrationDistance_call _ _ _).1 as [maxdist|e]; simpl;
      [|done].
    destruct (filter_sites_by_distance_to_source src maxdist sites)
      as [[sub|]|e].
    + simpl. intros ?; simplify_eq. eexists. by right.
    + simpl. intros ?; simplify_eq.
    + destruct (context_raises (A := option SiteCollection)
                  (source_id src) e) as [e' ->].
      done.
Qed.

(** X15: whatever the filter and however the generator ends, the sources
    it yields are sources of the input, in the order of the input and each
    at most once per occurrence: their identifiers form a subsequence of
    those of the input, and a yielded source differs from the input one by
    [nsites] at most. *)
Theorem X15_sources_subsequence (self : SourceFilter)
    (sources : list Source) (sites : option SiteCollection) :
  map (fun p => source_id p.1) (SourceFilter_call self sources sites).1
    `sublist_of` map source_id sources /\
  forall p, p ∈ (SourceFilter_call self sources sites).1 ->
    exists src n, src ∈ sources /\ (p.1 = src \/ p.1 = set_nsites src n).
Proof.
  unfold SourceFilter_call. destruct (sitecol self) as [sc|]; simpl.
  - set (s := default sc sites).
    induction sources as [|src sources [IH1 IH2]]; simpl.
    { split; [done|]. by intros p ?%elem_of_nil. }
    assert (forall p, p ∈ (filter_loop self s sources).1 ->
              exists src0 n, src0 ∈ src :: sources /\
                             (p.1 = src0 \/ p.1 = set_nsites src0 n)) as IH2'.
    { intros p Hp. destruct (IH2 p Hp) as (src0 & n & ? & ?).
      exists src0, n. split; [by right|done]. }
    destruct (filter_source self s src) as [[p|]|e] eqn:Hsrc.
    + destruct (filter_loop self s sources) as [out fin]. simpl in *.
      destruct (filter_source_id self s src p Hsrc) as [n Hp].
      split.
      * assert (source_id p.1 = source_id src) as ->
          by (by destruct Hp as [->| ->]).
        by apply sublist_skip.
      * intros q [->|Hq]%elem_of_cons; [|by apply IH2'].
        exists src, n. split; [by left|done].
    + split; [by apply sublist_cons|done].
    + simpl. split; [apply sublist_nil_l|]. by intros p ?%elem_of_nil.
  - split.
    + rewrite map_map. simpl. done.
    + intros p Hp. apply list_elem_of_fmap in Hp as (src & -> & Hsrc).
      exists src, 0%nat. split; [done|by left].
Qed.

Lemma X15_sources_subsequence_witness :
  map (fun p => source_id p.1)
    (SourceFilter_call sample_filter
       [far_source; near_source; antimeridian_source] None).1
    `sublist_of`
  map source_id [far_source; near_source; antimeridian_source].
Proof.
  apply (X15_sources_subsequence sample_filter
           [far_source; near_source; antimeridian_source] None).
Defined.

(** ** The order of the index *)

Lemma filter_source_index_perm self idx idx' sites src :
  idx ≡ₚ idx' ->
  filter_source (set_index self idx) sites src
  = filter_source (set_index self idx') sites src.
Proof.
  intros Hperm. unfold filter_source. simpl.
  destruct (use_rtree self); [|done].
  change (get_affected_box (set_index self idx) src)
    with (get_affected_box self src).
  change (get_affected_box (set_index self idx') src)
    with (get_affected_box self src).
  destruct (get_affected_box self src) as [[b|]|e]; simpl; [|done|done].
  destruct (box_ok b); simpl; [|done].
  by rewrite (sorted_hits_perm idx idx' b Hperm).
Qed.

(** X16: the order in which the index enumerates its items has no effect:
    two filters that differ by that order only yield the same pairs and end
    the same way. *)
Theorem X16_index_order_irrelevant (self : SourceFilter) (idx idx' : Index)
    (sources : list Source) (sites : option SiteCollection) :
  idx ≡ₚ idx' ->
  SourceFilter_call (set_index self idx) sources sites
  = SourceFilter_call (set_index self idx') sources sites.
Proof.
  intros Hperm. unfold SourceFilter_call. simpl.
  destruct (sitecol self) as [sc|]; [|done].
  induction sources as [|src sources IH]; [done|]. simpl.
  rewrite (filter_source_index_perm self idx idx') by done.
  by rewrite IH.
Qed.

Lemma X16_index_order_irrelevant_witness :
  SourceFilter_call (set_index sample_filter sample_index)
    [far_source; near_source] None
  = SourceFilter_call (set_index sample_filter (reverse sample_index))
      [far_source; near_source] None.
Proof.
  apply (X16_index_order_irrelevant sample_filter sample_index
           (reverse sample_index)).
  symmetry. apply reverse_Permutation.
Defined.

(** ** The IDL fix and longitudes in range *)





(** ** Larger thresholds keep the sites *)



(** ** What the constructor of IntegrationDistance stores *)

Lemma sorted_last_pair_le l p :
  StronglySorted pair_le l -> last l = Some p ->
  forall q, q ∈ l -> pair_le q p.
Proof.
  intros Hs. induction Hs as [|x l Hs IH Hall]; [done|].
  intros Hlast q Hq. destruct l as [|y l].
  - simpl in Hlast. apply list_elem_of_singleton in Hq. simplify_eq.
    apply pair_le_iff. right. split; lra.
  - change (last (y :: l) = Some p) in Hlast.
    apply elem_of_cons in Hq as [->|Hq]; [|by apply IH].
    rewrite List.Forall_forall in Hall.
    apply Hall, list_elem_of_In. by apply last_Some_elem_of in Hlast.
Qed.

(** X19: the constructor keeps the keys of the dictionary; a scalar entry
    is stored as it is and has no table of magnitudes; a list entry is
    stored as a permutation of itself sorted by magnitude, then distance,
    and its table holds the magnitudes and the distances of that sorted
    list; no cache exists yet. *)
Theorem X19_constructor_stores (d : gmap string dist_value) (k : string) :
  let self := IntegrationDistance_init d in
  dom (dic self) = dom d /\
  interp self = None /\
  (forall x, d !! k = Some (Scalar x) ->
   dic self !! k = Some (Scalar x) /\ magdist self !! k = None) /\
  (forall l, d !! k = Some (MagDist l) ->
   exists l',
     dic self !! k = Some (MagDist l') /\
     l' ≡ₚ l /\ StronglySorted pair_le l' /\
     magdist self !! k = Some (zip_star l')) /\
  (d !! k = None -> dic self !! k = None /\ magdist self !! k = None).
Proof.
  simpl. split; [apply dom_fmap_L|]. split; [done|].
  rewrite lookup_fmap, lookup_omap.
  split; [|split].
  - intros x ->. done.
  - intros l ->. exists (sort_pairs l). simpl.
    split; [done|]. split; [apply sort_pairs_perm|].
    split; [apply sort_pairs_sorted|done].
  - intros ->. done.
Qed.

Lemma X19_constructor_stores_witness :
  exists l',
    dic sample_maxdist !! "default"%string = Some (MagDist l') /\
    l' ≡ₚ [(1, 10); (2, 20); (3, 30); (4, 40); (5, 100); (6, 200);
           (7, 400); (8, 800)] /\
    StronglySorted pair_le l' /\
    magdist sample_maxdist !! "default"%string = Some (zip_star l').
Proof.
  apply (X19_constructor_stores sample_dict "default").
  vm_compute. reflexivity.
Defined.

(** X20: the distance without magnitude does not depend on the order in
    which the pairs were given to the constructor: for a non-empty list
    entry it is the distance of a pair of the given list that no other pair
    exceeds, by magnitude first and by distance among equal magnitudes. *)
Theorem X20_envelope_of_given_list (d : gmap string dist_value)
    (history : list (string * option Q)) (trt : string) (l : list (Q * Q)) :
  getdefault d trt = Ok (MagDist l) -> l <> [] ->
  exists m top,
    (IntegrationDistance_call
       (run_lookups (IntegrationDistance_init d) history) trt None).1
      = Ok top /\
    (m, top) ∈ l /\
    forall q, q ∈ l -> q.1 < m \/ (q.1 == m /\ q.2 <= top).
Proof.
  intros Hv Hne.
  assert (getdefault (dic (IntegrationDistance_init d)) trt
          = Ok (MagDist (sort_pairs l))) as Hdic.
  { unfold getdefault in *. simpl. rewrite !lookup_fmap.
    destruct (d !! trt) as [v|]; simpl in *.
    - by simplify_eq.
    - destruct (d !! "default"%string) as [v|]; simpl in *; by simplify_eq. }
  rewrite lookup_after_history. unfold threshold. rewrite Hdic. simpl.
  destruct (last (sort_pairs l)) as [[m top]|] eqn:Hlast.
  - exists m, top. split; [done|]. split.
    + rewrite <- (sort_pairs_perm l). by apply last_Some_elem_of.
    + intros q Hq. rewrite <- (sort_pairs_perm l) in Hq.
      pose proof (sorted_last_pair_le _ _ (sort_pairs_sorted l) Hlast q Hq)
        as Hle.
      by apply pair_le_iff in Hle.
  - apply last_None in Hlast.
    pose proof (sort_pairs_perm l) as Hperm. rewrite Hlast in Hperm.
    by apply Permutation_nil_l in Hperm.
Qed.

Lemma X20_envelope_of_given_list_witness :
  exists m top,
    (IntegrationDistance_call
       (run_lookups
          (IntegrationDistance_init
             {[ "default"%string := MagDist [(7, 400); (8, 800); (5, 100)] ]})
          [("Active"%string, Some 6)]) "Volcanic" None).1 = Ok top /\
    (m, top) ∈ [(7, 400); (8, 800); (5, 100)] /\
    forall q, q ∈ [(7, 400); (8, 800); (5, 100)] ->
              q.1 < m \/ (q.1 == m /\ q.2 <= top).
Proof.
  apply (X20_envelope_of_given_list
           {[ "default"%string := MagDist [(7, 400); (8, 800); (5, 100)] ]}
           [("Active"%string, Some 6)] "Volcanic").
  - vm_compute. reflexivity.
  - discriminate.
Defined.
